(** * Session flow of the admin template

    A shallow embedding of the authentication code of the template:
    - [src/app/api/auth/login/route.ts]   (the login handler [login_POST]),
    - the logout route                    (the logout handler [logout_POST]),
    - [src/app/api/auth/me/route.ts]      (the identity lookup [me_GET]),
    - [lib/auth.ts]                       ([getUserFromRequest]),
    - [src/contexts/auth-contexts.tsx]    (the client context, module [AuthProvider]),
    - [src/components/protected-route.tsx] ([ProtectedRoute]).

    JavaScript values are JSON trees whose objects are finite maps, exceptions
    are an explicit [result] type, and the wall clock, the process environment
    and the browser stores are passed explicitly.  The two libraries the code
    calls, [jsonwebtoken] and the base64url/JSON text layer under it, are
    modelled in [Section Jwt] over an abstract [WireCodec]. *)

From Stdlib Require Import ZArith String Ascii.
From stdpp Require Import base option list gmap strings countable.

#[local] Set Warnings "-register-all".
#[local] Open Scope Z_scope.
#[local] Open Scope string_scope.

(** ** JavaScript values *)

(** A JSON value.  Numbers are integers: the code only ever tests a number for
    zero or compares second counts. *)
Inductive json :=
| JNull
| JBool (b : bool)
| JNum (n : Z)
| JStr (s : string)
| JArr (l : list json)
| JObj (m : gmap string json).

(** An expression of the code evaluates to a JSON value or to [undefined],
    which is [None]. *)
Abbreviation jsval := (option json).

(** [!v] is [negb (truthy v)]. *)
Definition truthy (v : jsval) : bool :=
  match v with
  | None | Some JNull => false
  | Some (JBool b) => b
  | Some (JNum n) => negb (n =? 0)%Z
  | Some (JStr s) => negb (s =? "")%string
  | Some (JArr _) | Some (JObj _) => true
  end.

(** [v === s] for a string [s]. *)
Definition strict_eq_string (v : jsval) (s : string) : bool :=
  match v with
  | Some (JStr s') => (s' =? s)%string
  | _ => false
  end.

(** [a || b] on strings that may be undefined, as in
    [process.env.JWT_SECRET || 'your-secret-key']. *)
Definition or_default (a : option string) (b : string) : string :=
  match a with
  | Some s => if (s =? "")%string then b else s
  | None => b
  end.

(** ** Exceptions *)

Inductive exn :=
| SyntaxError
| TypeError
| Error (message : string)
| JsonWebTokenError (message : string)
| NotBeforeError
| TokenExpiredError.

Inductive result (A : Type) :=
| Ok (a : A)
| Throw (e : exn).
Arguments Ok {A} a.
Arguments Throw {A} e.

#[global] Instance result_ret : MRet result := λ A a, Ok a.
#[global] Instance result_bind : MBind result := λ A B k r,
  match r with
  | Ok a => k a
  | Throw e => Throw e
  end.

(** [try { body } catch (error) { handler }]. *)
Definition try_catch {A} (body : result A) (handler : exn → result A) : result A :=
  match body with
  | Ok a => Ok a
  | Throw e => handler e
  end.

(** [const { k } = v]: reading an own property of a parsed JSON value.
    Reading from [null] throws; a value that is not an object has no such
    property. *)
Definition get_property (v : json) (k : string) : result jsval :=
  match v with
  | JNull => Throw TypeError
  | JObj m => Ok (m !! k)
  | _ => Ok None
  end.

(** ** Text layer under jsonwebtoken *)

(** [s.split('.')]. *)
Fixpoint split_dot (s : string) : list string :=
  match s with
  | EmptyString => [EmptyString]
  | String c r =>
      if Ascii.eqb c "."%char then EmptyString :: split_dot r
      else match split_dot r with
           | p :: ps => String c p :: ps
           | [] => [String c EmptyString]
           end
  end.

Fixpoint dot_free (s : string) : bool :=
  match s with
  | EmptyString => true
  | String c r => negb (Ascii.eqb c "."%char) && dot_free r
  end.

(** JSON text, base64url and the keyed hash.  The laws are the ones the token
    format rests on: both encodings are read back, and base64url text, which
    the signature is too, has no dot and a signature is not empty. *)
Class WireCodec := {
  JSON_stringify : json → string;
  JSON_parse : string → option json;
  base64url : string → string;
  unbase64url : string → option string;
  hmac : string → string → string → string;
  JSON_parse_stringify : ∀ j, JSON_parse (JSON_stringify j) = Some j;
  unbase64url_base64url : ∀ s, unbase64url (base64url s) = Some s;
  base64url_dot_free : ∀ s, dot_free (base64url s) = true;
  hmac_dot_free : ∀ alg key msg, dot_free (hmac alg key msg) = true;
  hmac_nonempty : ∀ alg key msg, hmac alg key msg ≠ "";
}.

(** ** jsonwebtoken *)

Section Jwt.
Context {W : WireCodec}.

(** One segment of a token: base64url of the JSON text of an object. *)
Definition encode_segment (o : gmap string json) : string :=
  base64url (JSON_stringify (JObj o)).

Definition decode_segment (s : string) : option (gmap string json) :=
  match unbase64url s ≫= JSON_parse with
  | Some (JObj o) => Some o
  | _ => None
  end.

Definition jose_header : gmap string json :=
  <["alg" := JStr "HS256"]> (<["typ" := JStr "JWT"]> ∅).

Definition hs_supported : list string := ["HS256"; "HS384"; "HS512"].

Definition is_number_or_absent (v : jsval) : bool :=
  match v with
  | None | Some (JNum _) => true
  | _ => false
  end.

(** [jws.sign({header, payload, secret})]. *)
Definition jws_sign (alg : string) (header payload : gmap string json)
    (secret : string) : string :=
  let secured := encode_segment header +:+ "." +:+ encode_segment payload in
  secured +:+ "." +:+ hmac alg secret secured.

(** [jwt.sign(payload, secret, { expiresIn })] for an object payload, with
    [expiresIn] in seconds and [now] the value of [Date.now()]. *)
Definition jwt_sign (payload : gmap string json) (secret : string)
    (expiresIn : Z) (now : Z) : result string :=
  if (secret =? "")%string then Throw (Error "secretOrPrivateKey must have a value")
  else if negb (is_number_or_absent (payload !! "iat")
                && is_number_or_absent (payload !! "exp")
                && is_number_or_absent (payload !! "nbf"))
  then Throw (Error "registered claim should be a number of seconds")
  else if bool_decide (is_Some (payload !! "exp"))
  then Throw (Error "Bad options.expiresIn option the payload already has an exp property.")
  else
    let timestamp :=
      match payload !! "iat" with
      | Some (JNum n) => if (n =? 0)%Z then now `div` 1000 else n
      | _ => now `div` 1000
      end in
    let payload := <["iat" := JNum timestamp]> payload in
    let payload := <["exp" := JNum (timestamp + expiresIn)]> payload in
    Ok (jws_sign "HS256" jose_header payload secret).

(** [value.k] for a value that is not [null]: only an object has the
    properties the code asks for. *)
Definition own_property (v : json) (k : string) : jsval :=
  match v with
  | JObj m => m !! k
  | _ => None
  end.

(** [jws.decode] on the first two segments: the header read as JSON, and the
    payload, which is parsed when the header says ["typ": "JWT"] (and then has
    to be JSON) and is the decoded text otherwise.  [Ok None] is [null]. *)
Definition jws_decode (p0 p1 : string) : result (option (json * json)) :=
  match unbase64url p0 ≫= JSON_parse, unbase64url p1 with
  | Some header, Some text =>
      if negb (truthy (Some header)) then Ok None
      else if strict_eq_string (own_property header "typ") "JWT" then
        match JSON_parse text with
        | Some payload => Ok (Some (header, payload))
        | None => Throw SyntaxError
        end
      else Ok (Some (header, JStr text))
  | _, _ => Ok None
  end.

(** What [jwt.decode] adds: a payload that is a string holding the JSON text
    of an object or array is replaced by that object or array. *)
Definition reparse (payload : json) : json :=
  match payload with
  | JStr s =>
      match JSON_parse s with
      | Some (JObj o) => JObj o
      | Some (JArr l) => JArr l
      | _ => JStr s
      end
  | _ => payload
  end.

(** [jwt.decode(token, { complete: true })]. *)
Definition jwt_decode (p0 p1 : string) : result (option (json * json)) :=
  match jws_decode p0 p1 with
  | Ok (Some (header, payload)) => Ok (Some (header, reparse payload))
  | Ok None => Ok None
  | Throw e => Throw e
  end.

(** The checks of [jwt.verify] on the payload of a token whose signature is
    good; reading a claim of the payload [null] throws. *)
Definition check_claims (payload : json) (clockTimestamp : Z) : result json :=
  nbf ← get_property payload "nbf";
  _ ← match nbf with
      | None => Ok ()
      | Some (JNum nbf) =>
          if (clockTimestamp <? nbf)%Z then Throw NotBeforeError else Ok ()
      | Some _ => Throw (JsonWebTokenError "invalid nbf value")
      end;
  exp ← get_property payload "exp";
  _ ← match exp with
      | None => Ok ()
      | Some (JNum exp) =>
          if (exp <=? clockTimestamp)%Z then Throw TokenExpiredError else Ok ()
      | Some _ => Throw (JsonWebTokenError "invalid exp value")
      end;
  Ok payload.

(** [jwt.verify(token, secret)] with a string secret and no options.  It
    returns the payload, which is whatever the token carries: an object, an
    array, a string, a number or a boolean. *)
Definition jwt_verify (jwtString secret : string) (now : Z) : result json :=
  let clockTimestamp := now `div` 1000 in
  if (jwtString =? "")%string then Throw (JsonWebTokenError "jwt must be provided")
  else match split_dot jwtString with
  | [p0; p1; p2] =>
      match jwt_decode p0 p1 with
      | Throw e => Throw e
      | Ok None => Throw (JsonWebTokenError "invalid token")
      | Ok (Some (header, payload)) =>
          if (p2 =? "")%string then Throw (JsonWebTokenError "jwt signature is required")
          else if (secret =? "")%string
          then Throw (JsonWebTokenError "secret or public key must be provided")
          else match own_property header "alg" with
          | Some (JStr alg) =>
              if bool_decide (alg ∈ hs_supported) then
                if (p2 =? hmac alg secret (p0 +:+ "." +:+ p1))%string
                then check_claims payload clockTimestamp
                else Throw (JsonWebTokenError "invalid signature")
              else Throw (JsonWebTokenError "invalid algorithm")
          | _ => Throw (JsonWebTokenError "invalid algorithm")
          end
      end
  | _ => Throw (JsonWebTokenError "jwt malformed")
  end.
End Jwt.

(** ** Next.js requests and responses *)

(** What a handler reads of a [NextRequest]: the cookies, and what
    [await request.json()] resolves to, [None] when the body is not JSON text
    and the promise rejects. *)
Record NextRequest := {
  req_cookies : gmap string string;
  req_json : option json;
}.

Inductive SameSite := Strict | Lax | NoSameSite.

(** The options of [response.cookies.set], the name apart; [expires] is in
    milliseconds since the epoch and [maxAge] in seconds. *)
Record ResponseCookie := {
  value : string;
  httpOnly : bool;
  path : string;
  maxAge : option Z;
  expires : option Z;
  sameSite : SameSite;
}.

Record NextResponse := {
  status : Z;
  body : json;
  cookies : gmap string ResponseCookie;
}.

(** [NextResponse.json(body, { status })]. *)
Definition NextResponse_json (body : json) (status : Z) : NextResponse :=
  {| status := status; body := body; cookies := ∅ |}.

(** How [cookies.set] normalises its options at instant [now]: a [maxAge]
    that is given and not zero fixes [expires] at [now + maxAge * 1000]. *)
Definition normalizeCookie (now : Z) (c : ResponseCookie) : ResponseCookie :=
  match maxAge c with
  | Some age =>
      if (age =? 0)%Z then c
      else {| value := value c; httpOnly := httpOnly c; path := path c;
              maxAge := maxAge c; expires := Some (now + age * 1000);
              sameSite := sameSite c |}
  | None => c
  end.

(** [response.cookies.set({ name, ... })], called at instant [now]. *)
Definition cookies_set (now : Z) (name : string) (c : ResponseCookie)
    (r : NextResponse) : NextResponse :=
  {| status := status r; body := body r;
     cookies := <[name := normalizeCookie now c]> (cookies r) |}.

(** [await request.json()]. *)
Definition request_json (request : NextRequest) : result json :=
  match req_json request with
  | Some j => Ok j
  | None => Throw SyntaxError
  end.

(** An object literal with one property. *)
Definition obj1 (k : string) (v : json) : json := JObj (<[k := v]> ∅).

(** ** lib/auth.ts *)

(** [interface User]. *)
Record User := {
  id : string;
  email : string;
  name : string;
  role : string;
}.

(** The object literal [{ id, email, name, role }] both handlers build. *)
Definition user_object (u : User) : gmap string json :=
  <["id" := JStr (id u)]> (<["email" := JStr (email u)]>
    (<["name" := JStr (name u)]> (<["role" := JStr (role u)]> ∅))).

(** The view of a decoded object through [interface User]. *)
Definition as_User (o : gmap string json) : option User :=
  match o !! "id", o !! "email", o !! "name", o !! "role" with
  | Some (JStr i), Some (JStr e), Some (JStr n), Some (JStr r) =>
      Some {| id := i; email := e; name := n; role := r |}
  | _, _, _, _ => None
  end.

(** The handlers take the value of [process.env.JWT_SECRET] and of
    [Date.now()] besides the request; the logout handler reads the clock only
    inside [cookies.set].  An [async] handler returns a promise,
    which resolves to a response ([Ok]) or rejects ([Throw]). *)

Section Handlers.
Context {W : WireCodec}.

(** [process.env.JWT_SECRET || 'your-secret-key']. *)
Definition jwt_secret (env_JWT_SECRET : option string) : string :=
  or_default env_JWT_SECRET "your-secret-key".

(** [getUserFromRequest] before its result is handed to the caller: [Ok None]
    is [null], [Ok (Some decoded)] the value [jwt.verify] returned, [Throw] an
    exception that leaves the function. *)
Definition getUserFromRequest (env_JWT_SECRET : option string) (now : Z)
    (request : NextRequest) : result (option json) :=
  try_catch
    (let token := req_cookies request !! "auth-token" in
     match token with
     | None => Ok None
     | Some token =>
         if (token =? "")%string then Ok None
         else
           decoded ← jwt_verify token (jwt_secret env_JWT_SECRET) now;
           Ok (Some decoded)
     end)
    (λ error, Ok None).

(** ** app/api/auth/login/route.ts *)

Record MockUser := {
  mu_id : string;
  mu_email : string;
  mu_password : string;
  mu_name : string;
  mu_role : string;
}.

Definition mockUsers : list MockUser :=
  [ {| mu_id := "1";
       mu_email := "admin@example.com";
       mu_password := "admin123";
       mu_name := "Admin User";
       mu_role := "admin" |} ].

Definition public_user (user : MockUser) : User :=
  {| id := mu_id user; email := mu_email user;
     name := mu_name user; role := mu_role user |}.

(** The [jwt.sign] call of the login handler, with [expiresIn: '1d'] in
    seconds. *)
Definition sign_token (env_JWT_SECRET : option string) (now : Z) (u : User)
    : result string :=
  jwt_sign (user_object u) (jwt_secret env_JWT_SECRET) 86400 now.

Definition login_POST (env_JWT_SECRET : option string) (now : Z)
    (request : NextRequest) : result NextResponse :=
  try_catch
    (body ← request_json request;
     email ← get_property body "email";
     password ← get_property body "password";
     if negb (truthy email) || negb (truthy password) then
       Ok (NextResponse_json (obj1 "error" (JStr "Email y contraseña son requeridos")) 400)
     else
       match find (λ u, strict_eq_string email (mu_email u)
                        && strict_eq_string password (mu_password u)) mockUsers with
       | None =>
           Ok (NextResponse_json (obj1 "error" (JStr "Credenciales inválidas")) 401)
       | Some user =>
           token ← sign_token env_JWT_SECRET now (public_user user);
           let response :=
             NextResponse_json (obj1 "user" (JObj (user_object (public_user user)))) 200 in
           Ok (cookies_set now "auth-token"
                 {| value := token; httpOnly := true; path := "/";
                    maxAge := Some (60 * 60 * 24); expires := None;
                    sameSite := Strict |}
                 response)
       end)
    (λ error,
       Ok (NextResponse_json (obj1 "error" (JStr "Error interno del servidor")) 500)).

(** ** app/api/auth/logout/route.ts *)

Definition logout_POST (now : Z) (request : NextRequest) : result NextResponse :=
  try_catch
    (let response := NextResponse_json (obj1 "success" (JBool true)) 200 in
     Ok (cookies_set now "auth-token"
           {| value := ""; httpOnly := true; path := "/";
              maxAge := None; expires := Some 0;
              sameSite := Strict |}
           response))
    (λ error,
       Ok (NextResponse_json (obj1 "error" (JStr "Error interno del servidor")) 500)).

(** ** app/api/auth/me/route.ts *)

Definition me_GET (env_JWT_SECRET : option string) (now : Z)
    (request : NextRequest) : result NextResponse :=
  try_catch
    (user ← getUserFromRequest env_JWT_SECRET now request;
     if negb (truthy user) then
       Ok (NextResponse_json
             (JObj (<["success" := JBool false]>
                      (<["message" := JStr "Not authenticated"]> ∅))) 401)
     else
       Ok (NextResponse_json
             (JObj (<["success" := JBool true]>
                      (<["user" := default JNull user]> ∅))) 200))
    (λ error,
       Ok (NextResponse_json
             (JObj (<["success" := JBool false]>
                      (<["message" := JStr "Internal server error"]> ∅))) 500)).
End Handlers.

(** ** The responses, named

    The handlers build their responses in place; the statements below refer
    to them by these names. *)

Section Responses.
Context {W : WireCodec}.

(** The claims of the token the login handler signs at [t0] for [u]. *)
Definition session_claims (u : User) (t0 : Z) : gmap string json :=
  <["exp" := JNum (t0 `div` 1000 + 86400)]>
    (<["iat" := JNum (t0 `div` 1000)]> (user_object u)).

Definition session_token (env : option string) (t0 : Z) (u : User) : string :=
  jws_sign "HS256" jose_header (session_claims u t0) (jwt_secret env).

Definition bad_request : NextResponse :=
  NextResponse_json (obj1 "error" (JStr "Email y contraseña son requeridos")) 400.

Definition invalid_credentials : NextResponse :=
  NextResponse_json (obj1 "error" (JStr "Credenciales inválidas")) 401.

Definition server_error : NextResponse :=
  NextResponse_json (obj1 "error" (JStr "Error interno del servidor")) 500.

(** The answer to a login that succeeds for [u] at [now]. *)
Definition logged_in (env : option string) (now : Z) (u : User) : NextResponse :=
  cookies_set now "auth-token"
    {| value := session_token env now u; httpOnly := true; path := "/";
       maxAge := Some 86400; expires := None; sameSite := Strict |}
    (NextResponse_json (obj1 "user" (JObj (user_object u))) 200).

(** The test of [mockUsers.find]. *)
Definition matches (email password : jsval) (u : MockUser) : bool :=
  strict_eq_string email (mu_email u) && strict_eq_string password (mu_password u).

Definition not_authenticated : NextResponse :=
  NextResponse_json
    (JObj (<["success" := JBool false]> (<["message" := JStr "Not authenticated"]> ∅)))
    401.

(** The 200 answer of the identity lookup for the value [user]. *)
Definition answered_with (user : json) : NextResponse :=
  NextResponse_json
    (JObj (<["success" := JBool true]> (<["user" := user]> ∅))) 200.

Definition authenticated_as (user : gmap string json) : NextResponse :=
  NextResponse_json
    (JObj (<["success" := JBool true]> (<["user" := JObj user]> ∅))) 200.

End Responses.

(** The directory entry as the handlers present it. *)
Definition admin : User :=
  {| id := "1"; email := "admin@example.com"; name := "Admin User"; role := "admin" |}.

(** The request body [{ email, password }]. *)
Definition credentials (email password : string) : json :=
  JObj (<["email" := JStr email]> (<["password" := JStr password]> ∅)).

(** ** The browser side *)

(** What a client component does besides returning: React state updates,
    local storage, navigation, the console and network requests. *)
Inductive effect :=
| SetUser (user : json)
| SetIsLoading (b : bool)
| SetIsAuthenticated (b : bool)
| LocalStorageSetItem (key item : string)
| LocalStorageRemoveItem (key : string)
| RouterPush (href : string)
| ConsoleError (label : string)
| Fetch (method url : string).

Definition is_fetch (e : effect) : bool :=
  match e with
  | Fetch _ _ => true
  | _ => false
  end.

(** The state the effects act on: the three [useState] cells of the provider,
    [localStorage], the pushed routes and the requests sent, oldest first. *)
Record Client := {
  user : json;
  isLoading : bool;
  isAuthenticated : bool;
  localStorage : gmap string string;
  pushed : list string;
  sent : list (string * string);
}.

Definition perform (c : Client) (e : effect) : Client :=
  match e with
  | SetUser u =>
      {| user := u; isLoading := isLoading c; isAuthenticated := isAuthenticated c;
         localStorage := localStorage c; pushed := pushed c; sent := sent c |}
  | SetIsLoading b =>
      {| user := user c; isLoading := b; isAuthenticated := isAuthenticated c;
         localStorage := localStorage c; pushed := pushed c; sent := sent c |}
  | SetIsAuthenticated b =>
      {| user := user c; isLoading := isLoading c; isAuthenticated := b;
         localStorage := localStorage c; pushed := pushed c; sent := sent c |}
  | LocalStorageSetItem k v =>
      {| user := user c; isLoading := isLoading c; isAuthenticated := isAuthenticated c;
         localStorage := <[k := v]> (localStorage c); pushed := pushed c; sent := sent c |}
  | LocalStorageRemoveItem k =>
      {| user := user c; isLoading := isLoading c; isAuthenticated := isAuthenticated c;
         localStorage := delete k (localStorage c); pushed := pushed c; sent := sent c |}
  | RouterPush href =>
      {| user := user c; isLoading := isLoading c; isAuthenticated := isAuthenticated c;
         localStorage := localStorage c; pushed := (pushed c ++ [href])%list; sent := sent c |}
  | ConsoleError _ => c
  | Fetch method url =>
      {| user := user c; isLoading := isLoading c; isAuthenticated := isAuthenticated c;
         localStorage := localStorage c; pushed := pushed c; sent := (sent c ++ [(method, url)])%list |}
  end.

Definition run (es : list effect) (c : Client) : Client := foldl perform c es.

(** *** contexts/auth-contexts.tsx *)

Module AuthProvider.
Section Provider.
Context {W : WireCodec}.

(** The provider at its first render, in a browser with nothing stored. *)
Definition initial : Client :=
  {| user := JNull; isLoading := true; isAuthenticated := false;
     localStorage := ∅; pushed := []; sent := [] |}.

(** [login]: its effects in order, and whether the promise resolves. *)
Definition login (email password : string) : list effect * result () :=
  let '(tried, outcome) :=
    if (email =? "admin@example.com")%string && (password =? "password123")%string
    then
      let userData :=
        JObj (<["email" := JStr email]> (<["name" := JStr "Admin User"]>
                (<["role" := JStr "admin"]> ∅))) in
      ([SetIsLoading true; SetUser userData; SetIsAuthenticated true;
        LocalStorageSetItem "user" (JSON_stringify userData)], Ok ())
    else ([SetIsLoading true], Throw (Error "Invalid credentials")) in
  let caught :=
    match outcome with
    | Ok _ => []
    | Throw _ => [ConsoleError "Login error:"]
    end in
  ((tried ++ caught ++ [SetIsLoading false])%list, outcome).

Definition logout : list effect :=
  [SetUser JNull; SetIsAuthenticated false;
   LocalStorageRemoveItem "user"; RouterPush "/login"].
End Provider.
End AuthProvider.

(** *** components/protected-route.tsx *)

Inductive rendered := Spinner | Children | Nothing.

(** What the guard renders, and the effect of its [useEffect]. *)
Definition ProtectedRoute (c : Client) : rendered * list effect :=
  (if isLoading c then Spinner
   else if isAuthenticated c then Children else Nothing,
   if negb (isLoading c) && negb (isAuthenticated c) then [RouterPush "/login"] else []).

(** *** The cookie jar *)

(** How a browser stores one cookie of a response received at [now]
    (milliseconds): a cookie whose lifetime is over is dropped, [maxAge]
    going before [expires]. *)
Definition cookie_is_over (now : Z) (c : ResponseCookie) : bool :=
  match maxAge c, expires c with
  | Some age, _ => (age <=? 0)%Z
  | None, Some e => (e <=? now)%Z
  | None, None => false
  end.

Definition store_cookie (now : Z) (name : string) (c : ResponseCookie)
    (jar : gmap string string) : gmap string string :=
  if cookie_is_over now c then delete name jar else <[name := value c]> jar.

Definition receive (now : Z) (r : NextResponse) (jar : gmap string string)
    : gmap string string :=
  map_fold (store_cookie now) jar (cookies r).

(** The request a browser sends with its jar. *)
Definition request_with (jar : gmap string string) (json : option json) : NextRequest :=
  {| req_cookies := jar; req_json := json |}.

(** *** The rest of the client

    The mount effect of the provider, the dashboard page and the submit
    handler of the login page. *)

Section Mount.
Context {W : WireCodec}.

(** [checkAuthStatus] of the provider's [useEffect], reading the local
    storage of [c]. *)
Definition checkAuthStatus (c : Client) : list effect :=
  ([SetIsLoading true] ++
   match localStorage c !! "user" with
   | Some storedUser =>
       if (storedUser =? "")%string then []
       else
         match JSON_parse storedUser with
         | Some userData => [SetUser userData; SetIsAuthenticated true]
         | None =>
             [ConsoleError "Failed to parse stored user data:";
              LocalStorageRemoveItem "user"]
         end
   | None => []
   end ++
   [SetIsLoading false])%list.

(** The [useEffect] callback: [checkAuthStatus] runs where [window] is
    defined. *)
Definition mount_effect (window_defined : bool) (c : Client) : list effect :=
  if window_defined then checkAuthStatus c else [].

(** The client when the provider mounts in a browser that holds [storage]:
    the initial values of the three [useState] cells. *)
Definition mounted (storage : gmap string string) : Client :=
  {| user := JNull; isLoading := true; isAuthenticated := false;
     localStorage := storage; pushed := []; sent := [] |}.

(** The client without an identity, over [storage]. *)
Definition signed_out (storage : gmap string string) : Client :=
  {| user := JNull; isLoading := false; isAuthenticated := false;
     localStorage := storage; pushed := []; sent := [] |}.

(** The provider after its mount effect has run. *)
Definition hydrated (storage : gmap string string) : Client :=
  run (checkAuthStatus (mounted storage)) (mounted storage).
End Mount.

(** *** app/dashboard/page.tsx *)

(** [user?.name]. *)
Definition optional_name (user : json) : jsval :=
  match user with
  | JObj m => m !! "name"
  | _ => None
  end.

(** The dashboard: the guard around its content, the effect of the guard,
    and the name its greeting shows. *)
Definition DashboardPage (c : Client) : rendered * list effect * jsval :=
  (ProtectedRoute c, optional_name (user c)).

(** *** app/(auth)/login/page.tsx *)

(** What [handleSubmit] does, in order: the form's own calls, and effects on
    the shared client. *)
Inductive form_event :=
| PreventDefault
| FormSetIsLoading (b : bool)
| SetTimeout (ms : Z)
| ConsoleLog (label : string) (data : json)
| Shared (e : effect).

Definition handleSubmit (email password : string) : list form_event :=
  [PreventDefault;
   FormSetIsLoading true;
   SetTimeout 1000;
   ConsoleLog "Login attempt with:" (credentials email password);
   Shared (RouterPush "/dashboard");
   FormSetIsLoading false].

Definition shared_effects (es : list form_event) : list effect :=
  omap (λ e, match e with Shared e => Some e | _ => None end) es.

(** ** A reference codec

    A transparent instance of [WireCodec]: every text is the binary numeral of
    stdpp's injective numbering of the value.  It shows that the laws of the
    interface hold together, and it is the codec of the concrete runs below. *)

Module Reference.
Abbreviation leaf := (bool + Z + string)%type.

Fixpoint json_size (j : json) : nat :=
  match j with
  | JArr l => S (foldr (λ x acc, json_size x + acc)%nat 0%nat l)
  | JObj m => S (map_fold (λ _ x acc, json_size x + acc)%nat 0%nat m)
  | _ => 1%nat
  end.

Definition entry_to_tree (kv : string * gen_tree leaf) : gen_tree leaf :=
  GenNode 3 [GenLeaf (inr kv.1); kv.2].

Fixpoint json_to_tree (j : json) : gen_tree leaf :=
  match j with
  | JNull => GenNode 0 []
  | JBool b => GenLeaf (inl (inl b))
  | JNum n => GenLeaf (inl (inr n))
  | JStr s => GenLeaf (inr s)
  | JArr l => GenNode 1 (json_to_tree <$> l)
  | JObj m => GenNode 2 (entry_to_tree <$> map_to_list (json_to_tree <$> m))
  end.

Fixpoint tree_to_json (t : gen_tree leaf) : json :=
  match t with
  | GenLeaf (inl (inl b)) => JBool b
  | GenLeaf (inl (inr n)) => JNum n
  | GenLeaf (inr s) => JStr s
  | GenNode 1 ts => JArr (tree_to_json <$> ts)
  | GenNode 2 ts =>
      JObj (list_to_map
              ((λ t, match t with
                     | GenNode _ [GenLeaf (inr k); v] => (k, tree_to_json v)
                     | _ => (EmptyString, JNull)
                     end) <$> ts))
  | GenNode _ _ => JNull
  end.

Definition tree_to_entry (t : gen_tree leaf) : string * json :=
  match t with
  | GenNode _ [GenLeaf (inr k); v] => (k, tree_to_json v)
  | _ => (EmptyString, JNull)
  end.

(** The binary numeral of a positive number, lowest bit first. *)
Fixpoint bits (p : positive) : string :=
  match p with
  | xH => "1"
  | xO q => String "0" (bits q)
  | xI q => String "1" (bits q)
  end.

Fixpoint unbits (s : string) : option positive :=
  match s with
  | EmptyString => None
  | String c r =>
      match r with
      | EmptyString => if Ascii.eqb c "1" then Some xH else None
      | _ =>
          if Ascii.eqb c "0" then xO <$> unbits r
          else if Ascii.eqb c "1" then xI <$> unbits r
          else None
      end
  end.

(** A 32-bit rolling checksum, standing for the keyed hash. *)
Definition checksum (s : string) : N :=
  foldl (λ h c, (h * 31 + N_of_ascii c) `mod` 4294967296)%N 0%N (list_ascii_of_string s).

Definition write `{Countable A} (a : A) : string := bits (encode a).
Definition read `{Countable A} (s : string) : option A := unbits s ≫= decode.

Lemma json_size_lookup (m : gmap string json) k v :
  m !! k = Some v → (json_size v < json_size (JObj m))%nat.
Proof.
  intros Hk. simpl.
  rewrite <-(insert_delete_id m k v Hk).
  rewrite map_fold_insert_L; [lia| |apply lookup_delete_eq].
  intros. lia.
Qed.

Lemma json_size_elem (l : list json) v :
  v ∈ l → (json_size v < json_size (JArr l))%nat.
Proof. simpl. induction 1; simpl; lia. Qed.

(** Induction on JSON trees, with the hypothesis for every element of an
    array and every value of an object. *)
Lemma json_ind' (P : json → Prop) :
  P JNull → (∀ b, P (JBool b)) → (∀ n, P (JNum n)) → (∀ s, P (JStr s)) →
  (∀ l, Forall P l → P (JArr l)) →
  (∀ m, map_Forall (λ _, P) m → P (JObj m)) →
  ∀ j, P j.
Proof.
  intros Hn Hb Hz Hs Ha Ho j.
  remember (json_size j) as n eqn:Hsz.
  revert j Hsz. induction (lt_wf n) as [n _ IH]. intros j ->.
  destruct j as [| | | |l|m]; auto.
  - apply Ha, list.Forall_forall. intros v Hv.
    eapply IH; [|reflexivity]. by apply json_size_elem.
  - apply Ho. intros k v Hk.
    eapply IH; [|reflexivity]. by eapply json_size_lookup.
Qed.

Lemma tree_to_json_arr ts :
  tree_to_json (GenNode 1 ts) = JArr (tree_to_json <$> ts).
Proof. reflexivity. Qed.

Lemma tree_to_json_obj ts :
  tree_to_json (GenNode 2 ts) = JObj (list_to_map (tree_to_entry <$> ts)).
Proof. reflexivity. Qed.

Lemma json_to_tree_arr l : json_to_tree (JArr l) = GenNode 1 (json_to_tree <$> l).
Proof. reflexivity. Qed.

Lemma json_to_tree_obj m :
  json_to_tree (JObj m) =
  GenNode 2 (entry_to_tree <$> map_to_list (json_to_tree <$> m)).
Proof. reflexivity. Qed.

Lemma tree_to_json_to_tree j : tree_to_json (json_to_tree j) = j.
Proof.
  induction j as [| | | |l IH|m IH] using json_ind'; try done.
  - rewrite json_to_tree_arr, tree_to_json_arr. f_equal.
    rewrite <-list_fmap_compose.
    induction IH as [|x l Hx _ IHl]; [done|].
    rewrite fmap_cons. simpl. by rewrite Hx, IHl.
  - rewrite json_to_tree_obj, tree_to_json_obj. f_equal.
    rewrite <-list_fmap_compose.
    apply map_eq. intros k. apply option_eq. intros v.
    rewrite <-elem_of_list_to_map.
    + rewrite list_elem_of_fmap. split.
      * intros ([k' t] & Heq & Hin). simpl in Heq. simplify_eq.
        apply elem_of_map_to_list in Hin.
        rewrite lookup_fmap in Hin.
        destruct (m !! k') as [v|] eqn:Hk; simplify_eq/=.
        f_equal. symmetry. by apply (IH k').
      * intros Hk. exists (k, json_to_tree v). simpl. split.
        { f_equal. symmetry. by apply (IH k). }
        apply elem_of_map_to_list. by rewrite lookup_fmap, Hk.
    + rewrite <-list_fmap_compose.
      erewrite list_fmap_ext; [apply (NoDup_fst_map_to_list (json_to_tree <$> m))|].
      by intros ? [??].
Qed.

Lemma unbits_bits p : unbits (bits p) = Some p.
Proof.
  induction p as [q IH|q IH|]; [| |done].
  - change (bits q~1) with (String "1" (bits q)).
    cbn [unbits]. destruct (bits q) eqn:Hq; [by destruct q|].
    by rewrite IH.
  - change (bits q~0) with (String "0" (bits q)).
    cbn [unbits]. destruct (bits q) eqn:Hq; [by destruct q|].
    by rewrite IH.
Qed.

Lemma bits_dot_free p : dot_free (bits p) = true.
Proof. induction p; simpl; auto. Qed.

Lemma bits_nonempty p : bits p ≠ "".
Proof. by destruct p. Qed.

Lemma read_write `{Countable A} (a : A) : read (write a) = Some a.
Proof. unfold read, write. rewrite unbits_bits. simpl. apply decode_encode. Qed.

#[local] Instance leaf_tree_countable : Countable (gen_tree leaf) := _.

Definition codec : WireCodec.
Proof.
  refine {|
    JSON_stringify j := write (json_to_tree j);
    JSON_parse s := tree_to_json <$> read s;
    base64url s := write s;
    unbase64url s := read s;
    hmac alg key msg := bits (N.succ_pos (checksum (alg +:+ "/" +:+ key +:+ "/" +:+ msg)));
  |}.
  - intros j. by rewrite read_write; simpl; rewrite tree_to_json_to_tree.
  - intros s. apply read_write.
  - intros s. apply bits_dot_free.
  - intros alg key msg. apply bits_dot_free.
  - intros alg key msg. apply bits_nonempty.
Defined.
End Reference.


(** * Properties *)

Lemma bind_Ok {A B} (a : A) (k : A → result B) : Ok a ≫= k = k a.
Proof. reflexivity. Qed.

(** ** Splitting at dots *)

Lemma split_dot_nonempty s : split_dot s ≠ [].
Proof.
  destruct s as [|c r]; simpl; [done|].
  destruct (Ascii.eqb c "."); [done|]. by destruct (split_dot r).
Qed.

Lemma split_dot_free s : dot_free s = true → split_dot s = [s].
Proof.
  induction s as [|c r IH]; simpl; [done|].
  destruct (Ascii.eqb c "."); simpl; [done|].
  intros Hr. by rewrite (IH Hr).
Qed.

Lemma split_dot_app s r :
  dot_free s = true → split_dot (s +:+ "." +:+ r) = s :: split_dot r.
Proof.
  induction s as [|c s IH]; simpl; [done|].
  destruct (Ascii.eqb c "."); simpl; [done|].
  intros Hs. by rewrite (IH Hs).
Qed.

Lemma split_dot_single s x : split_dot s = [x] → x = s.
Proof.
  revert x. induction s as [|c r IH]; simpl; intros x.
  - by intros [= <-].
  - destruct (Ascii.eqb c ".").
    + intros [= _ Hr]. by apply split_dot_nonempty in Hr.
    + destruct (split_dot r) as [|p ps] eqn:Hr; [by apply split_dot_nonempty in Hr|].
      intros [= <- ->]. by rewrite (IH p).
Qed.

Lemma string_app_assoc (a b c : string) : (a +:+ b) +:+ c = a +:+ b +:+ c.
Proof.
  induction a as [|x a IH]; [done|].
  change (String x ((a +:+ b) +:+ c) = String x (a +:+ b +:+ c)). by f_equal.
Qed.

Lemma split_dot_three a b c :
  dot_free a = true → dot_free b = true → dot_free c = true →
  split_dot ((a +:+ "." +:+ b) +:+ "." +:+ c) = [a; b; c].
Proof.
  intros Ha Hb Hc.
  rewrite !string_app_assoc.
  by rewrite !split_dot_app, split_dot_free.
Qed.

Lemma append_dot_nonempty a r : (a +:+ "." +:+ r =? "")%string = false.
Proof. by destruct a. Qed.

Lemma or_default_nonempty a : (or_default a "your-secret-key" =? "")%string = false.
Proof.
  destruct a as [s|]; simpl; [|done].
  by destruct (s =? "")%string eqn:Hs.
Qed.

(** ** The token format *)

Section JwtFacts.
Context {W : WireCodec}.

Lemma decode_encode_segment o : decode_segment (encode_segment o) = Some o.
Proof.
  unfold decode_segment, encode_segment.
  rewrite unbase64url_base64url. simpl.
  by rewrite JSON_parse_stringify.
Qed.

Lemma encode_segment_dot_free o : dot_free (encode_segment o) = true.
Proof. apply base64url_dot_free. Qed.

Lemma split_jws_sign alg header payload secret :
  split_dot (jws_sign alg header payload secret) =
  [encode_segment header; encode_segment payload;
   hmac alg secret (encode_segment header +:+ "." +:+ encode_segment payload)].
Proof.
  unfold jws_sign.
  apply split_dot_three;
    auto using encode_segment_dot_free, hmac_dot_free.
Qed.

Lemma jws_sign_nonempty alg header payload secret :
  (jws_sign alg header payload secret =? "")%string = false.
Proof.
  unfold jws_sign. rewrite string_app_assoc. apply append_dot_nonempty.
Qed.

Lemma hmac_eqb_empty alg key msg : (hmac alg key msg =? "")%string = false.
Proof. apply String.eqb_neq, hmac_nonempty. Qed.

Lemma unbase64url_encode_segment o :
  unbase64url (encode_segment o) = Some (JSON_stringify (JObj o)).
Proof. apply unbase64url_base64url. Qed.

(** The two segments of a signed token are read back as they were written. *)
Lemma jwt_decode_signed payload :
  jwt_decode (encode_segment jose_header) (encode_segment payload)
  = Ok (Some (JObj jose_header, JObj payload)).
Proof.
  unfold jwt_decode, jws_decode.
  rewrite !unbase64url_encode_segment.
  change (Some (JSON_stringify (JObj jose_header)) ≫= JSON_parse)
    with (JSON_parse (JSON_stringify (JObj jose_header))).
  by rewrite !JSON_parse_stringify.
Qed.

(** A token of [jws.sign] passes the format and signature checks of
    [jwt.verify]; its claims remain to be checked. *)
Lemma jwt_verify_jws_sign payload secret now :
  (secret =? "")%string = false →
  jwt_verify (jws_sign "HS256" jose_header payload secret) secret now =
  check_claims (JObj payload) (now `div` 1000).
Proof.
  intros Hsecret. unfold jwt_verify.
  rewrite jws_sign_nonempty, split_jws_sign, jwt_decode_signed.
  rewrite hmac_eqb_empty, Hsecret.
  change (own_property (JObj jose_header) "alg") with (Some (JStr "HS256")).
  change (bool_decide ("HS256" ∈ hs_supported)) with true.
  cbv iota. by rewrite String.eqb_refl.
Qed.

Lemma jwt_secret_nonempty env : (jwt_secret env =? "")%string = false.
Proof. apply or_default_nonempty. Qed.

Lemma sign_token_eq env t0 u : sign_token env t0 u = Ok (session_token env t0 u).
Proof.
  unfold sign_token, jwt_sign. rewrite jwt_secret_nonempty.
  change (user_object u !! "iat") with (@None json).
  change (user_object u !! "exp") with (@None json).
  change (user_object u !! "nbf") with (@None json).
  reflexivity.
Qed.

Lemma session_claims_nbf u t0 : session_claims u t0 !! "nbf" = None.
Proof. reflexivity. Qed.

Lemma session_claims_exp u t0 :
  session_claims u t0 !! "exp" = Some (JNum (t0 `div` 1000 + 86400)).
Proof. reflexivity. Qed.

Lemma session_claims_iat u t0 :
  session_claims u t0 !! "iat" = Some (JNum (t0 `div` 1000)).
Proof. reflexivity. Qed.

Lemma session_claims_as_User u t0 : as_User (session_claims u t0) = Some u.
Proof. by destruct u. Qed.

Lemma check_session_claims u t0 clock :
  check_claims (JObj (session_claims u t0)) clock =
  if (t0 `div` 1000 + 86400 <=? clock)%Z then Throw TokenExpiredError
  else Ok (JObj (session_claims u t0)).
Proof.
  unfold check_claims, get_property.
  rewrite !bind_Ok, session_claims_nbf, bind_Ok, session_claims_exp.
  by destruct (_ <=? _)%Z.
Qed.

Lemma jwt_verify_session env t0 t u :
  jwt_verify (session_token env t0 u) (jwt_secret env) t =
  if (t0 `div` 1000 + 86400 <=? t `div` 1000)%Z then Throw TokenExpiredError
  else Ok (JObj (session_claims u t0)).
Proof.
  unfold session_token.
  rewrite jwt_verify_jws_sign by apply jwt_secret_nonempty.
  apply check_session_claims.
Qed.

End JwtFacts.

(** ** Token verification and the identity lookup *)

Section Verification.
Context {W : WireCodec}.

Lemma check_claims_Ok payload clock checked :
  check_claims payload clock = Ok checked → checked = payload.
Proof.
  unfold check_claims. intros Hc.
  destruct (get_property payload "nbf") as [nbf|]; [|done].
  rewrite bind_Ok in Hc.
  destruct (match nbf with
            | None => Ok ()
            | Some (JNum nbf) =>
                if (clock <? nbf)%Z then Throw NotBeforeError else Ok ()
            | Some _ => Throw (JsonWebTokenError "invalid nbf value")
            end) as [[]|]; [|done].
  rewrite bind_Ok in Hc.
  destruct (get_property payload "exp") as [exp|]; [|done].
  rewrite bind_Ok in Hc.
  destruct (match exp with
            | None => Ok ()
            | Some (JNum exp) =>
                if (exp <=? clock)%Z then Throw TokenExpiredError else Ok ()
            | Some _ => Throw (JsonWebTokenError "invalid exp value")
            end) as [[]|]; [|done].
  rewrite bind_Ok in Hc. by injection Hc as <-.
Qed.

(** What [jwt.verify] has checked when it returns. *)
Lemma jwt_verify_Ok token secret now payload :
  jwt_verify token secret now = Ok payload →
  ∃ p0 p1 p2 header alg,
    split_dot token = [p0; p1; p2] ∧
    jwt_decode p0 p1 = Ok (Some (header, payload)) ∧
    own_property header "alg" = Some (JStr alg) ∧
    p2 = hmac alg secret (p0 +:+ "." +:+ p1) ∧
    check_claims payload (now `div` 1000) = Ok payload.
Proof.
  unfold jwt_verify. intros Hv.
  destruct (token =? "")%string; [done|].
  destruct (split_dot token) as [|p0 [|p1 [|p2 [|??]]]]; try done.
  destruct (jwt_decode p0 p1) as [[[header payload']|]|] eqn:Hd; try done.
  destruct (p2 =? "")%string; [done|].
  destruct (secret =? "")%string; [done|].
  destruct (own_property header "alg") as [[| | |alg| |]|] eqn:Halg; try done.
  destruct (bool_decide _); [|done].
  destruct (p2 =? _)%string eqn:Hsig; [|done].
  apply String.eqb_eq in Hsig.
  pose proof (check_claims_Ok _ _ _ Hv) as ->.
  by exists p0, p1, p2, header, alg.
Qed.

(** The header [jwt.decode] returns is the JSON the first segment holds. *)
Lemma jwt_decode_header p0 p1 header payload :
  jwt_decode p0 p1 = Ok (Some (header, payload)) →
  unbase64url p0 ≫= JSON_parse = Some header.
Proof.
  unfold jwt_decode, jws_decode.
  destruct (unbase64url p0 ≫= JSON_parse) as [header'|]; [|done].
  destruct (unbase64url p1) as [text|]; [|done].
  destruct (negb (truthy (Some header'))); [done|].
  destruct (strict_eq_string _ _).
  - destruct (JSON_parse text); [|done]. by intros [= <- _].
  - by intros [= <- _].
Qed.

(** When the second segment holds the JSON text of an object, that object is
    the payload, whatever the header says. *)
Lemma jwt_decode_object p0 p1 header payload o :
  jwt_decode p0 p1 = Ok (Some (header, payload)) →
  decode_segment p1 = Some o → payload = JObj o.
Proof.
  unfold jwt_decode, jws_decode, decode_segment.
  destruct (unbase64url p0 ≫= JSON_parse) as [header'|]; [|done].
  destruct (unbase64url p1) as [text|]; [|done].
  change (Some text ≫= JSON_parse) with (JSON_parse text).
  destruct (negb (truthy (Some header'))); [done|].
  destruct (JSON_parse text) as [j|] eqn:Hparse; [|by destruct (strict_eq_string _ _)].
  destruct j; try by destruct (strict_eq_string _ _).
  intros Hd [= <-].
  destruct (strict_eq_string _ _).
  - by injection Hd as _ <-.
  - injection Hd as _ <-. unfold reparse. by rewrite Hparse.
Qed.

Lemma check_claims_expired (payload : gmap string json) (clock exp : Z) :
  payload !! "exp" = Some (JNum exp) → (exp ≤ clock)%Z →
  ∃ e, check_claims (JObj payload) clock = Throw e.
Proof.
  intros Hexp Hle. unfold check_claims, get_property.
  rewrite bind_Ok, Hexp.
  destruct (payload !! "nbf") as [[| |nbf| | |]|]; simpl; eauto.
  - destruct (clock <? nbf)%Z; simpl; eauto.
    destruct (exp <=? clock)%Z eqn:E; simpl; eauto. lia.
  - destruct (exp <=? clock)%Z eqn:E; simpl; eauto. lia.
Qed.

Lemma jwt_verify_empty secret now :
  jwt_verify "" secret now = Throw (JsonWebTokenError "jwt must be provided").
Proof. reflexivity. Qed.

Lemma getUserFromRequest_no_cookie env now request :
  req_cookies request !! "auth-token" = None →
  getUserFromRequest env now request = Ok None.
Proof. intros Hc. unfold getUserFromRequest. by rewrite Hc. Qed.

Lemma getUserFromRequest_cookie env now request token :
  req_cookies request !! "auth-token" = Some token →
  getUserFromRequest env now request =
  match jwt_verify token (jwt_secret env) now with
  | Ok decoded => Ok (Some decoded)
  | Throw _ => Ok None
  end.
Proof.
  intros Hc. unfold getUserFromRequest. rewrite Hc.
  destruct (token =? "")%string eqn:Ht.
  - apply String.eqb_eq in Ht as ->. by rewrite jwt_verify_empty.
  - by destruct (jwt_verify _ _ _).
Qed.

Lemma getUserFromRequest_Ok env now request :
  ∃ r, getUserFromRequest env now request = Ok r.
Proof.
  destruct (req_cookies request !! "auth-token") as [token|] eqn:Hc.
  - rewrite (getUserFromRequest_cookie _ _ _ _ Hc).
    destruct (jwt_verify _ _ _); eauto.
  - rewrite getUserFromRequest_no_cookie; eauto.
Qed.

Lemma me_GET_eq env now request :
  me_GET env now request =
  Ok (match getUserFromRequest env now request with
      | Ok (Some user) =>
          if truthy (Some user) then answered_with user else not_authenticated
      | _ => not_authenticated
      end).
Proof.
  unfold me_GET.
  destruct (getUserFromRequest_Ok env now request) as [[user|] ->]; [|done].
  rewrite bind_Ok. by destruct (truthy (Some user)).
Qed.

Lemma before_expiry (t0 t : Z) :
  (t < (t0 `div` 1000 + 86400) * 1000)%Z →
  (t0 `div` 1000 + 86400 <=? t `div` 1000)%Z = false.
Proof.
  intros Ht. apply Z.leb_gt.
  apply Z.div_lt_upper_bound; lia.
Qed.

Lemma getUserFromRequest_session env (t0 t : Z) u jar json :
  (t < (t0 `div` 1000 + 86400) * 1000)%Z →
  getUserFromRequest env t
    (request_with (<["auth-token" := session_token env t0 u]> jar) json) =
  Ok (Some (JObj (session_claims u t0))).
Proof.
  intros Ht.
  rewrite (getUserFromRequest_cookie _ _ _ (session_token env t0 u))
    by apply lookup_insert_eq.
  by rewrite jwt_verify_session, before_expiry.
Qed.

End Verification.

(** ** The login handler *)

Section Login.
Context {W : WireCodec}.

Lemma login_POST_fields env now request j email password :
  req_json request = Some j →
  get_property j "email" = Ok email →
  get_property j "password" = Ok password →
  login_POST env now request =
  Ok (if negb (truthy email) || negb (truthy password) then bad_request
      else match find (matches email password) mockUsers with
           | None => invalid_credentials
           | Some user => logged_in env now (public_user user)
           end).
Proof.
  intros Hj He Hp. unfold login_POST, request_json.
  rewrite Hj, bind_Ok, He, bind_Ok, Hp, bind_Ok.
  destruct (negb (truthy email) || negb (truthy password)); [done|].
  change (λ u, strict_eq_string email (mu_email u)
               && strict_eq_string password (mu_password u))
    with (matches email password).
  destruct (find (matches email password) mockUsers) as [user|]; [|done].
  by rewrite sign_token_eq.
Qed.

Lemma login_POST_no_json env now request :
  req_json request = None → login_POST env now request = Ok server_error.
Proof. intros Hj. unfold login_POST, request_json. by rewrite Hj. Qed.

Lemma login_POST_null env now request :
  req_json request = Some JNull → login_POST env now request = Ok server_error.
Proof. intros Hj. unfold login_POST, request_json. by rewrite Hj. Qed.

Lemma get_property_total j k :
  j = JNull ∨ ∃ v, get_property j k = Ok v.
Proof. destruct j; simpl; eauto. Qed.

(** The four answers of the login handler. *)
Lemma login_POST_cases env now request :
  ∃ response, login_POST env now request = Ok response ∧
    (response = bad_request ∨ response = invalid_credentials ∨
     response = server_error ∨
     ∃ user, user ∈ mockUsers ∧ response = logged_in env now (public_user user)).
Proof.
  destruct (req_json request) as [j|] eqn:Hj;
    [|rewrite login_POST_no_json by done; eauto 6].
  destruct (get_property_total j "email") as [->|[email He]];
    [rewrite login_POST_null by done; eauto 6|].
  destruct (get_property_total j "password") as [->|[password Hp]]; [done|].
  rewrite (login_POST_fields _ _ _ _ _ _ Hj He Hp).
  eexists; split; [done|].
  destruct (negb (truthy email) || negb (truthy password)); [eauto|].
  destruct (find _ _) as [user|] eqn:Hfind; [|eauto].
  do 3 right. exists user. split; [|done].
  apply list_elem_of_In. by apply find_some in Hfind as [? _].
Qed.

Lemma find_matches_None email password :
  (∀ u, u ∈ mockUsers → matches email password u = false) →
  find (matches email password) mockUsers = None.
Proof.
  induction mockUsers as [|u l IH]; intros Hall; simpl; [done|].
  rewrite (Hall u) by left. apply IH. intros u' Hu'. apply Hall. by right.
Qed.

Lemma strict_eq_string_true v s : strict_eq_string v s = true ↔ v = Some (JStr s).
Proof.
  destruct v as [[| | |s'| |]|]; simpl; try (split; [done|by intros [=]]).
  rewrite String.eqb_eq. split; [by intros ->|by intros [=]].
Qed.

End Login.

(** ** Concrete runs

    The handlers evaluated with the reference codec: the token signed for the
    directory entry at instant 0, presented as it is, too late, and altered. *)

Module Runs.
#[local] Existing Instance Reference.codec.

Definition token : string := session_token None 0 admin.

Definition presenting (token : string) : NextRequest :=
  request_with (<["auth-token" := token]> ∅) None.

(** Another identity under the signature of [token]. *)
Definition forged : string :=
  (encode_segment jose_header +:+ "." +:+
   encode_segment
     (session_claims
        {| id := "2"; email := "root@example.com"; name := "Root"; role := "admin" |} 0))
  +:+ "." +:+
  hmac "HS256" (jwt_secret None)
    (encode_segment jose_header +:+ "." +:+ encode_segment (session_claims admin 0)).

Example token_accepted :
  getUserFromRequest None 86399999 (presenting token)
  = Ok (Some (JObj (session_claims admin 0))).
Proof. vm_compute. reflexivity. Qed.

Example token_expired :
  getUserFromRequest None 86400000 (presenting token) = Ok None.
Proof. vm_compute. reflexivity. Qed.

Example token_with_altered_signature :
  getUserFromRequest None 1000 (presenting (token +:+ "0")) = Ok None.
Proof. vm_compute. reflexivity. Qed.

Example token_with_altered_payload :
  getUserFromRequest None 1000 (presenting forged) = Ok None.
Proof. vm_compute. reflexivity. Qed.

Example token_malformed :
  getUserFromRequest None 1000 (presenting "not.a-token") = Ok None.
Proof. vm_compute. reflexivity. Qed.

Example token_of_another_secret :
  getUserFromRequest (Some "s3cret") 1000 (presenting token) = Ok None.
Proof. vm_compute. reflexivity. Qed.

(** A token without ["typ"] whose payload is the text [hello]. *)
Definition greeting_token : string :=
  let secured :=
    encode_segment (<["alg" := JStr "HS256"]> ∅) +:+ "." +:+ base64url "hello" in
  secured +:+ "." +:+ hmac "HS256" (jwt_secret None) secured.

Example string_payload_returned :
  getUserFromRequest None 1000 (presenting greeting_token) = Ok (Some (JStr "hello")) ∧
  me_GET None 1000 (presenting greeting_token) = Ok (answered_with (JStr "hello")).
Proof. vm_compute. by split. Qed.

Example login_then_lookup :
  (response ← login_POST None 0
                (request_with ∅ (Some (credentials "admin@example.com" "admin123")));
   me_GET None 5000 (request_with (receive 0 response ∅) None))
  = Ok (authenticated_as (session_claims admin 0)).
Proof. vm_compute. reflexivity. Qed.

End Runs.

(** * The claims *)

(** C1 — login with ["admin@example.com"] and ["password123"].  The login
    handler answers this pair with 401 and sets no cookie, because the
    directory [mockUsers] holds the password ["admin123"], for which it answers
    200 with the identity and the session cookie; the [login] of the client
    context accepts ["password123"] for the same account. *)
Theorem login_password123_rejected {W : WireCodec} (env : option string) (now : Z)
    (jar : gmap string string) :
  login_POST env now
    (request_with jar (Some (credentials "admin@example.com" "password123")))
  = Ok invalid_credentials
  ∧ status invalid_credentials = 401
  ∧ cookies invalid_credentials = ∅
  ∧ login_POST env now
      (request_with jar (Some (credentials "admin@example.com" "admin123")))
    = Ok (logged_in env now admin)
  ∧ (AuthProvider.login "admin@example.com" "password123").2 = Ok ()
  ∧ isAuthenticated
      (run (AuthProvider.login "admin@example.com" "password123").1
         AuthProvider.initial) = true.
Proof.
  split_and!; try reflexivity.
  etrans; [eapply login_POST_fields; reflexivity|done].
Qed.

(** C2 — round trip of the token codec: for every identity [I], the token the
    login handler signs for [I] at [t0] is read back by [getUserFromRequest]
    at every time [t] before the token's expiry, as an object whose [User]
    view is [I]. *)
Theorem verify_issue_roundtrip {W : WireCodec} (env : option string) (t0 t : Z)
    (I : User) (jar : gmap string string) (json : option json) :
  (t < (t0 `div` 1000 + 86400) * 1000)%Z →
  ∃ token decoded,
    sign_token env t0 I = Ok token ∧
    getUserFromRequest env t (request_with (<["auth-token" := token]> jar) json)
    = Ok (Some (JObj decoded)) ∧
    decoded !! "exp" = Some (JNum (t0 `div` 1000 + 86400)) ∧
    as_User decoded = Some I.
Proof.
  intros Ht. exists (session_token env t0 I), (session_claims I t0).
  split_and!.
  - apply sign_token_eq.
  - by apply getUserFromRequest_session.
  - apply session_claims_exp.
  - apply session_claims_as_User.
Qed.

Lemma verify_issue_roundtrip_witness :
  (1000 < (0 `div` 1000 + 86400) * 1000)%Z ∧
  ∃ token decoded,
    sign_token (W:=Reference.codec) None 0 admin = Ok token ∧
    getUserFromRequest (W:=Reference.codec) None 1000
      (request_with (<["auth-token" := token]> ∅) None)
    = Ok (Some (JObj decoded)) ∧
    decoded !! "exp" = Some (JNum (0 `div` 1000 + 86400)) ∧
    as_User decoded = Some admin.
Proof.
  split; [reflexivity|].
  apply (verify_issue_roundtrip (W:=Reference.codec) None 0 1000 admin ∅ None).
  reflexivity.
Defined.

(** C3 — token verification is total for the caller.  For every request
    [getUserFromRequest] returns and does not throw; and whatever makes
    [jwt.verify] fail on the presented token, the result is the absent
    identity: any exception of [jwt.verify], in particular a string that is
    not three dot-separated segments, a signature segment that is not the
    keyed hash of the other two (a tampered payload or signature), and an
    expiry claim that has passed, whether or not the signature is good.  For
    the signature it is enough that it differs from the keyed hash under the
    algorithm the token's own header names. *)
Theorem getUserFromRequest_total {W : WireCodec} (env : option string) (now : Z)
    (request : NextRequest) :
  (∃ r, getUserFromRequest env now request = Ok r) ∧
  ∀ token, req_cookies request !! "auth-token" = Some token →
    (∀ e, jwt_verify token (jwt_secret env) now = Throw e →
          getUserFromRequest env now request = Ok None) ∧
    (length (split_dot token) ≠ 3%nat →
     getUserFromRequest env now request = Ok None) ∧
    (∀ p0 p1 p2, split_dot token = [p0; p1; p2] →
       (∀ alg, p2 ≠ hmac alg (jwt_secret env) (p0 +:+ "." +:+ p1)) →
       getUserFromRequest env now request = Ok None) ∧
    (∀ p0 p1 p2 payload exp, split_dot token = [p0; p1; p2] →
       decode_segment p1 = Some payload →
       payload !! "exp" = Some (JNum exp) → (exp * 1000 ≤ now)%Z →
       getUserFromRequest env now request = Ok None) ∧
    (∀ p0 p1 p2 header alg, split_dot token = [p0; p1; p2] →
       decode_segment p0 = Some header → header !! "alg" = Some (JStr alg) →
       p2 ≠ hmac alg (jwt_secret env) (p0 +:+ "." +:+ p1) →
       getUserFromRequest env now request = Ok None).
Proof.
  split; [apply getUserFromRequest_Ok|].
  intros token Hc. rewrite (getUserFromRequest_cookie _ _ _ _ Hc).
  split_and!.
  - by intros e ->.
  - intros Hlen.
    destruct (jwt_verify _ _ _) as [decoded|] eqn:Hv; [|done].
    apply jwt_verify_Ok in Hv as (p0 & p1 & p2 & header & alg & Hs & _).
    by rewrite Hs in Hlen.
  - intros p0 p1 p2 Hs Hsig.
    destruct (jwt_verify _ _ _) as [decoded|] eqn:Hv; [|done].
    apply jwt_verify_Ok in Hv
      as (q0 & q1 & q2 & header & alg & Hs' & _ & _ & Hq & _).
    rewrite Hs in Hs'. injection Hs' as <- <- <-. by destruct (Hsig alg).
  - intros p0 p1 p2 payload exp Hs Hp Hexp Hle.
    destruct (jwt_verify _ _ _) as [decoded|] eqn:Hv; [|done].
    apply jwt_verify_Ok in Hv
      as (q0 & q1 & q2 & header & alg & Hs' & Hd & _ & _ & Hcheck).
    rewrite Hs in Hs'. injection Hs' as <- <- <-.
    rewrite (jwt_decode_object _ _ _ _ _ Hd Hp) in Hcheck.
    destruct (check_claims_expired payload (now `div` 1000) exp Hexp) as [e He].
    + apply Z.div_le_lower_bound; lia.
    + by rewrite He in Hcheck.
  - intros p0 p1 p2 header alg Hs Hh Halg Hsig.
    destruct (jwt_verify _ _ _) as [decoded|] eqn:Hv; [|done].
    apply jwt_verify_Ok in Hv
      as (q0 & q1 & q2 & header' & alg' & Hs' & Hd & Halg' & Hq & _).
    rewrite Hs in Hs'. injection Hs' as <- <- <-.
    apply jwt_decode_header in Hd. unfold decode_segment in Hh. rewrite Hd in Hh.
    destruct header'; try done. injection Hh as ->.
    cbn [own_property] in Halg'. rewrite Halg in Halg'. injection Halg' as <-.
    by destruct Hsig.
Qed.

Lemma getUserFromRequest_total_witness :
  req_cookies (request_with (<["auth-token" := "not.a-token"]> ∅) None) !! "auth-token"
    = Some "not.a-token" ∧
  length (split_dot "not.a-token") ≠ 3%nat ∧
  getUserFromRequest (W:=Reference.codec) None 0
    (request_with (<["auth-token" := "not.a-token"]> ∅) None) = Ok None.
Proof.
  split; [reflexivity|]. split; [by vm_compute|].
  destruct (getUserFromRequest_total (W:=Reference.codec) None 0
              (request_with (<["auth-token" := "not.a-token"]> ∅) None))
    as [_ Hall].
  destruct (Hall "not.a-token" eq_refl) as (_ & Hmalformed & _).
  apply Hmalformed. by vm_compute.
Defined.

(** C8, as stated, fails: a token whose payload is the JSON value [false],
    signed with the server's secret, passes [jwt.verify], and the identity
    lookup answers it with 401, because [false] is falsy. *)
Lemma lookup_with_verified_falsy_payload :
  let secured :=
    encode_segment (W:=Reference.codec) jose_header +:+ "." +:+
    base64url (WireCodec:=Reference.codec)
      (JSON_stringify (WireCodec:=Reference.codec) (JBool false)) in
  let token :=
    secured +:+ "." +:+ hmac (WireCodec:=Reference.codec) "HS256" (jwt_secret None) secured in
  jwt_verify (W:=Reference.codec) token (jwt_secret None) 0 = Ok (JBool false) ∧
  me_GET (W:=Reference.codec) None 0 (request_with (<["auth-token" := token]> ∅) None)
  = Ok not_authenticated ∧
  status not_authenticated = 401.
Proof. vm_compute. by split_and!. Qed.

(** C8, amended — the identity lookup.  For every request the handler
    resolves, with a response that sets no cookie; when the session cookie is
    absent, or [jwt.verify] fails on its token, or the value [jwt.verify]
    returns is falsy, the response is 401 "Not authenticated"; when
    [jwt.verify] returns a truthy value, as every object is, the response is
    200 with that value as [user]. *)
Theorem me_GET_spec {W : WireCodec} (env : option string) (now : Z)
    (request : NextRequest) :
  (∃ response, me_GET env now request = Ok response ∧
     cookies response = ∅ ∧ (status response = 401 ∨ status response = 200)) ∧
  (req_cookies request !! "auth-token" = None →
   me_GET env now request = Ok not_authenticated) ∧
  (∀ token e, req_cookies request !! "auth-token" = Some token →
     jwt_verify token (jwt_secret env) now = Throw e →
     me_GET env now request = Ok not_authenticated) ∧
  (∀ token decoded, req_cookies request !! "auth-token" = Some token →
     jwt_verify token (jwt_secret env) now = Ok decoded →
     me_GET env now request =
     Ok (if truthy (Some decoded) then answered_with decoded else not_authenticated)) ∧
  (∀ token decoded, req_cookies request !! "auth-token" = Some token →
     jwt_verify token (jwt_secret env) now = Ok (JObj decoded) →
     me_GET env now request = Ok (authenticated_as decoded)) ∧
  status not_authenticated = 401 ∧
  (∀ decoded, status (answered_with decoded) = 200 ∧
     body (answered_with decoded) =
     JObj (<["success" := JBool true]> (<["user" := decoded]> ∅))) ∧
  (∀ decoded, authenticated_as decoded = answered_with (JObj decoded)).
Proof.
  rewrite me_GET_eq. split_and!; try done.
  - destruct (getUserFromRequest env now request) as [[user|]|];
      [destruct (truthy (Some user))|..];
      eexists; (split; [done|]); split; auto.
  - intros Hc. by rewrite getUserFromRequest_no_cookie.
  - intros token e Hc Hv. by rewrite (getUserFromRequest_cookie _ _ _ _ Hc), Hv.
  - intros token decoded Hc Hv.
    by rewrite (getUserFromRequest_cookie _ _ _ _ Hc), Hv.
  - intros token decoded Hc Hv.
    by rewrite (getUserFromRequest_cookie _ _ _ _ Hc), Hv.
Qed.

Lemma me_GET_spec_witness :
  req_cookies (request_with ∅ None) !! "auth-token" = None ∧
  me_GET (W:=Reference.codec) None 0 (request_with ∅ None) = Ok not_authenticated.
Proof.
  split; [reflexivity|].
  apply (me_GET_spec (W:=Reference.codec) None 0 (request_with ∅ None)).
  reflexivity.
Defined.

(** C10 — the [user] of a successful identity lookup is the whole decoded
    payload: for the token signed at [t0] for [I] and a lookup before its
    expiry, the response is 200 and its [user] object holds [id], [email],
    [name] and [role] of [I] and, besides, the numbers [iat] (the second of
    signing) and [exp] (one day later). *)
Theorem me_returns_full_payload {W : WireCodec} (env : option string) (t0 t : Z)
    (I : User) (jar : gmap string string) (json : option json) :
  (t < (t0 `div` 1000 + 86400) * 1000)%Z →
  ∃ token user,
    sign_token env t0 I = Ok token ∧
    me_GET env t (request_with (<["auth-token" := token]> jar) json)
    = Ok (NextResponse_json
            (JObj (<["success" := JBool true]> (<["user" := JObj user]> ∅))) 200) ∧
    user !! "id" = Some (JStr (id I)) ∧
    user !! "email" = Some (JStr (email I)) ∧
    user !! "name" = Some (JStr (name I)) ∧
    user !! "role" = Some (JStr (role I)) ∧
    user !! "iat" = Some (JNum (t0 `div` 1000)) ∧
    user !! "exp" = Some (JNum (t0 `div` 1000 + 60 * 60 * 24)) ∧
    dom user = {["id"; "email"; "name"; "role"; "iat"; "exp"]}.
Proof.
  intros Ht. exists (session_token env t0 I), (session_claims I t0).
  split; [apply sign_token_eq|].
  split; [by rewrite me_GET_eq, getUserFromRequest_session|].
  split_and!; reflexivity.
Qed.

Lemma me_returns_full_payload_witness :
  (1000 < (0 `div` 1000 + 86400) * 1000)%Z ∧
  ∃ token user,
    sign_token (W:=Reference.codec) None 0 admin = Ok token ∧
    me_GET (W:=Reference.codec) None 1000
      (request_with (<["auth-token" := token]> ∅) None)
    = Ok (NextResponse_json
            (JObj (<["success" := JBool true]> (<["user" := JObj user]> ∅))) 200) ∧
    user !! "id" = Some (JStr (id admin)) ∧
    user !! "email" = Some (JStr (email admin)) ∧
    user !! "name" = Some (JStr (name admin)) ∧
    user !! "role" = Some (JStr (role admin)) ∧
    user !! "iat" = Some (JNum (0 `div` 1000)) ∧
    user !! "exp" = Some (JNum (0 `div` 1000 + 60 * 60 * 24)) ∧
    dom user = {["id"; "email"; "name"; "role"; "iat"; "exp"]}.
Proof.
  split; [reflexivity|].
  apply (me_returns_full_payload (W:=Reference.codec) None 0 1000 admin ∅ None).
  reflexivity.
Defined.

(** C4 — login failures are indistinguishable.  Take two login requests that
    both carry an email and a password: one whose email is not in the
    directory, one whose email is in the directory with a password that is not
    the one recorded for it.  The handler gives both the same response, status
    401 with the message "Credenciales inválidas". *)
Theorem login_failures_indistinguishable {W : WireCodec} (env1 env2 : option string)
    (now1 now2 : Z) (jar1 jar2 : gmap string string) (m1 m2 : gmap string json) :
  truthy (m1 !! "email") = true → truthy (m1 !! "password") = true →
  truthy (m2 !! "password") = true →
  (∀ u, u ∈ mockUsers → m1 !! "email" ≠ Some (JStr (mu_email u))) →
  (∃ u, u ∈ mockUsers ∧ m2 !! "email" = Some (JStr (mu_email u))) →
  (∀ u, u ∈ mockUsers → m2 !! "email" = Some (JStr (mu_email u)) →
        m2 !! "password" ≠ Some (JStr (mu_password u))) →
  login_POST env1 now1 (request_with jar1 (Some (JObj m1))) =
  login_POST env2 now2 (request_with jar2 (Some (JObj m2))) ∧
  login_POST env1 now1 (request_with jar1 (Some (JObj m1))) = Ok invalid_credentials ∧
  status invalid_credentials = 401 ∧
  body invalid_credentials = obj1 "error" (JStr "Credenciales inválidas").
Proof.
  intros He1 Hp1 Hp2 Hunknown (u2 & Hu2 & He2) Hwrong.
  assert (login_POST env1 now1 (request_with jar1 (Some (JObj m1)))
          = Ok invalid_credentials) as Hr1.
  { rewrite (login_POST_fields env1 now1 _ (JObj m1) (m1 !! "email") (m1 !! "password"))
      by done.
    rewrite He1, Hp1. cbn [negb orb]. rewrite find_matches_None; [done|].
    intros u Hu. unfold matches. apply andb_false_intro1.
    apply not_true_is_false. rewrite strict_eq_string_true. by apply Hunknown. }
  assert (login_POST env2 now2 (request_with jar2 (Some (JObj m2)))
          = Ok invalid_credentials) as Hr2.
  { rewrite (login_POST_fields env2 now2 _ (JObj m2) (m2 !! "email") (m2 !! "password"))
      by done.
    assert (truthy (m2 !! "email") = true) as ->.
    { rewrite He2. unfold mockUsers in Hu2.
      apply list_elem_of_singleton in Hu2 as ->. reflexivity. }
    rewrite Hp2. cbn [negb orb]. rewrite find_matches_None; [done|].
    intros u Hu. unfold matches.
    destruct (strict_eq_string (m2 !! "email") (mu_email u)) eqn:Hemail; [|done].
    apply strict_eq_string_true in Hemail. simpl.
    apply not_true_is_false. rewrite strict_eq_string_true. by apply Hwrong. }
  by rewrite Hr1, Hr2.
Qed.

Lemma login_failures_indistinguishable_witness :
  login_POST (W:=Reference.codec) None 0
    (request_with ∅ (Some (credentials "nobody@example.com" "secret"))) =
  login_POST (W:=Reference.codec) None 5
    (request_with ∅ (Some (credentials "admin@example.com" "wrong"))) ∧
  login_POST (W:=Reference.codec) None 0
    (request_with ∅ (Some (credentials "nobody@example.com" "secret")))
  = Ok invalid_credentials ∧
  status invalid_credentials = 401 ∧
  body invalid_credentials = obj1 "error" (JStr "Credenciales inválidas").
Proof.
  apply (login_failures_indistinguishable (W:=Reference.codec) None None 0 5 ∅ ∅
           (<["email" := JStr "nobody@example.com"]> (<["password" := JStr "secret"]> ∅))
           (<["email" := JStr "admin@example.com"]> (<["password" := JStr "wrong"]> ∅))).
  - reflexivity.
  - reflexivity.
  - reflexivity.
  - intros u Hu. apply list_elem_of_singleton in Hu as ->. by vm_compute.
  - eexists. split; [by left|reflexivity].
  - intros u Hu _. apply list_elem_of_singleton in Hu as ->. by vm_compute.
Defined.

(** C5, as stated, fails: in a login request whose body is [null], or is
    not JSON, both fields are missing, and the handler answers 500, not 400. *)
Lemma login_without_readable_body :
  login_POST (W:=Reference.codec) None 0 (request_with ∅ (Some JNull)) = Ok server_error ∧
  login_POST (W:=Reference.codec) None 0 (request_with ∅ None) = Ok server_error ∧
  status server_error = 500 ∧
  status bad_request = 400.
Proof. split_and!; reflexivity. Qed.

(** C5, amended — validation and failed logins.  A login request whose body
    is read, as any JSON value other than [null] is, and in which the email or
    the password is missing (or empty) is answered with the 400 response; a
    request whose body is not JSON or is [null] is answered with the 500
    response; and every login request is answered, and every answer other
    than the 200 one sets no cookie. *)
Theorem login_validation {W : WireCodec} (env : option string) (now : Z)
    (request : NextRequest) :
  (∀ j email password, req_json request = Some j →
     get_property j "email" = Ok email → get_property j "password" = Ok password →
     truthy email = false ∨ truthy password = false →
     login_POST env now request = Ok bad_request) ∧
  (∀ m, req_json request = Some (JObj m) →
     m !! "email" = None ∨ m !! "password" = None →
     login_POST env now request = Ok bad_request) ∧
  status bad_request = 400 ∧
  (∃ response, login_POST env now request = Ok response ∧
     (status response ≠ 200 → cookies response = ∅)) ∧
  (∀ j, req_json request = Some j → j ≠ JNull →
     ∃ email password,
       get_property j "email" = Ok email ∧ get_property j "password" = Ok password) ∧
  (req_json request = None ∨ req_json request = Some JNull →
   login_POST env now request = Ok server_error) ∧
  status server_error = 500.
Proof.
  assert (∀ j email password, req_json request = Some j →
     get_property j "email" = Ok email → get_property j "password" = Ok password →
     truthy email = false ∨ truthy password = false →
     login_POST env now request = Ok bad_request) as Hfields.
  { intros j email password Hj He Hp Hmissing.
    rewrite (login_POST_fields _ _ _ _ _ _ Hj He Hp).
    by destruct Hmissing as [-> | ->]; [|rewrite orb_true_r]. }
  split_and!; [done| |done| | | |done].
  - intros m Hj Hmissing.
    apply (Hfields (JObj m) (m !! "email") (m !! "password")); [done..|].
    by destruct Hmissing as [-> | ->]; [left|right].
  - destruct (login_POST_cases env now request)
      as (response & -> & [-> | [-> | [-> | (user & _ & ->)]]]);
      eexists; (split; [done|]); done.
  - intros j _ Hj.
    destruct (get_property_total j "email") as [->|[email He]]; [done|].
    destruct (get_property_total j "password") as [->|[password Hp]]; [done|].
    eauto.
  - intros [Hj|Hj]; [by apply login_POST_no_json|by apply login_POST_null].
Qed.

Lemma login_validation_witness :
  req_json (request_with ∅ (Some (obj1 "email" (JStr "admin@example.com"))))
  = Some (JObj (<["email" := JStr "admin@example.com"]> ∅)) ∧
  (<["email" := JStr "admin@example.com"]> ∅ : gmap string json) !! "password" = None ∧
  login_POST (W:=Reference.codec) None 0
    (request_with ∅ (Some (obj1 "email" (JStr "admin@example.com")))) = Ok bad_request.
Proof.
  split; [reflexivity|]. split; [reflexivity|].
  destruct (login_validation (W:=Reference.codec) None 0
              (request_with ∅ (Some (obj1 "email" (JStr "admin@example.com")))))
    as (_ & Hmissing & _).
  apply (Hmissing (<["email" := JStr "admin@example.com"]> ∅)); [reflexivity|].
  right. reflexivity.
Defined.

(** C6 — logout.  For every request, whoever sends it and whenever, the
    logout handler resolves with status 200 and body [{ success: true }], and sets the cookie
    [auth-token] to the empty value with the expiry instant 0, which lies
    before every instant [now] after the epoch; a browser that receives the
    response then has no such cookie. *)
Theorem logout_POST_spec (t : Z) (request : NextRequest) (now : Z)
    (jar : gmap string string) :
  (0 < now)%Z →
  ∃ response cookie,
    logout_POST t request = Ok response ∧
    status response = 200 ∧
    body response = obj1 "success" (JBool true) ∧
    cookies response = {["auth-token" := cookie]} ∧
    value cookie = "" ∧
    (∃ e, expires cookie = Some e ∧ (e < now)%Z) ∧
    receive now response jar !! "auth-token" = None.
Proof.
  intros Hnow. eexists _, _. split; [reflexivity|].
  split_and!; try reflexivity.
  - by eexists.
  - unfold receive. cbn [cookies cookies_set NextResponse_json].
    rewrite insert_empty, map_fold_singleton.
    unfold store_cookie, cookie_is_over, normalizeCookie. cbn [maxAge expires].
    destruct (0 <=? now)%Z eqn:E; [|lia].
    apply lookup_delete_eq.
Qed.

Lemma logout_POST_spec_witness :
  (0 < 1)%Z ∧
  ∃ response cookie,
    logout_POST 0 (request_with ∅ None) = Ok response ∧
    status response = 200 ∧
    body response = obj1 "success" (JBool true) ∧
    cookies response = {["auth-token" := cookie]} ∧
    value cookie = "" ∧
    (∃ e, expires cookie = Some e ∧ (e < 1)%Z) ∧
    receive 1 response (∅ : gmap string string) !! "auth-token" = None.
Proof.
  split; [reflexivity|].
  apply (logout_POST_spec 0 (request_with ∅ None) 1 ∅). reflexivity.
Defined.

(** C7, as stated, fails: the token signed by a login at instant 0 is still
    accepted by the identity lookup at instant 2000, after a logout. *)
Lemma lookup_after_logout_stale_token :
  let token := session_token (W:=Reference.codec) None 0 admin in
  login_POST (W:=Reference.codec) None 0
    (request_with ∅ (Some (credentials "admin@example.com" "admin123")))
  = Ok (logged_in (W:=Reference.codec) None 0 admin) ∧
  value <$> cookies (logged_in (W:=Reference.codec) None 0 admin) !! "auth-token"
  = Some token ∧
  (∃ response, logout_POST 1000 (request_with (<["auth-token" := token]> ∅) None)
               = Ok response ∧ status response = 200) ∧
  me_GET (W:=Reference.codec) None 2000 (request_with (<["auth-token" := token]> ∅) None)
  = Ok (authenticated_as (session_claims admin 0)) ∧
  status (authenticated_as (session_claims admin 0)) = 200 ∧
  me_GET (W:=Reference.codec) None 2000 (request_with (<["auth-token" := token]> ∅) None)
  ≠ Ok not_authenticated.
Proof.
  intros token.
  assert (me_GET (W:=Reference.codec) None 2000
            (request_with (<["auth-token" := token]> ∅) None)
          = Ok (authenticated_as (session_claims admin 0))) as Hme.
  { rewrite me_GET_eq. unfold token.
    by rewrite getUserFromRequest_session. }
  split_and!.
  - etrans; [eapply login_POST_fields; reflexivity|].
    cbn [truthy negb orb]. reflexivity.
  - reflexivity.
  - eexists. split; reflexivity.
  - exact Hme.
  - reflexivity.
  - rewrite Hme. intros [=].
Qed.

(** C7, amended — logout and the identity lookup.  A browser that holds the
    session token and receives the logout response (after the epoch) sends its
    next identity lookup without the token, and that lookup is answered with
    401; a lookup that still presents the token, sent before the token
    expires, is answered with 200 and the token's claims, logout or not. *)
Theorem lookup_after_logout {W : WireCodec} (env : option string) (t0 t1 t2 : Z)
    (u : User) (jar : gmap string string) (json1 json2 : option json) :
  (0 < t1)%Z →
  ∃ response,
    logout_POST t1 (request_with (<["auth-token" := session_token env t0 u]> jar) json1)
    = Ok response ∧
    me_GET env t2
      (request_with
         (receive t1 response (<["auth-token" := session_token env t0 u]> jar)) json2)
    = Ok not_authenticated ∧
    ((t2 < (t0 `div` 1000 + 86400) * 1000)%Z →
     me_GET env t2
       (request_with (<["auth-token" := session_token env t0 u]> jar) json2)
     = Ok (authenticated_as (session_claims u t0))).
Proof.
  intros Ht1. eexists. split; [reflexivity|]. split.
  - rewrite me_GET_eq, getUserFromRequest_no_cookie; [done|].
    unfold receive. cbn [cookies cookies_set NextResponse_json req_cookies request_with].
    rewrite insert_empty, map_fold_singleton.
    unfold store_cookie, cookie_is_over, normalizeCookie. cbn [maxAge expires].
    destruct (0 <=? t1)%Z eqn:E; [|lia].
    apply lookup_delete_eq.
  - intros Ht2. by rewrite me_GET_eq, getUserFromRequest_session.
Qed.

Lemma lookup_after_logout_witness :
  (0 < 1000)%Z ∧
  ∃ response,
    logout_POST 1000
      (request_with
         (<["auth-token" := session_token (W:=Reference.codec) None 0 admin]> ∅) None)
    = Ok response ∧
    me_GET (W:=Reference.codec) None 2000
      (request_with
         (receive 1000 response
            (<["auth-token" := session_token (W:=Reference.codec) None 0 admin]> ∅))
         None)
    = Ok not_authenticated ∧
    ((2000 < (0 `div` 1000 + 86400) * 1000)%Z →
     me_GET (W:=Reference.codec) None 2000
       (request_with
          (<["auth-token" := session_token (W:=Reference.codec) None 0 admin]> ∅) None)
     = Ok (authenticated_as (session_claims admin 0))).
Proof.
  split; [reflexivity|].
  apply (lookup_after_logout (W:=Reference.codec) None 0 1000 2000 admin ∅ None None).
  reflexivity.
Defined.

(** C9, as stated, fails: the [logout] of the client context sends no request,
    so the logout handler is not invoked.  Here from the state a login has
    left. *)
Lemma logout_sends_no_request :
  let logged := run (AuthProvider.login (W:=Reference.codec)
                       "admin@example.com" "password123").1 AuthProvider.initial in
  isAuthenticated logged = true ∧
  filter (λ e, is_fetch e = true) AuthProvider.logout = [] ∧
  sent (run AuthProvider.logout logged) = [].
Proof. by vm_compute. Qed.

(** C9, amended — the [logout] of the client context.  From every client
    state it sets the identity to [null] and the authenticated flag to false,
    removes the stored ["user"] entry, and navigates to ["/login"]; it sends
    no request, so the logout handler is not invoked and no network failure
    can keep the local state from clearing.  The route guard then shows no
    protected content and, once loading is over, redirects to ["/login"]. *)
Theorem context_logout_spec (c : Client) :
  let c' := run AuthProvider.logout c in
  user c' = JNull ∧
  isAuthenticated c' = false ∧
  isLoading c' = isLoading c ∧
  localStorage c' = delete "user" (localStorage c) ∧
  pushed c' = (pushed c ++ ["/login"])%list ∧
  sent c' = sent c ∧
  Forall (λ e, is_fetch e = false) AuthProvider.logout ∧
  ProtectedRoute c' =
    (if isLoading c then Spinner else Nothing,
     if isLoading c then [] else [RouterPush "/login"]).
Proof.
  split_and!; try reflexivity.
  - repeat constructor.
  - unfold ProtectedRoute. simpl. by destruct (isLoading c).
Qed.

(** * Further properties *)

(** ** The login handler, all requests *)

Section LoginOutcomes.
Context {W : WireCodec}.

Lemma mockUsers_truthy u :
  u ∈ mockUsers →
  truthy (Some (JStr (mu_email u))) = true ∧ truthy (Some (JStr (mu_password u))) = true.
Proof. intros Hu. unfold mockUsers in Hu. by apply list_elem_of_singleton in Hu as ->. Qed.

Lemma find_matches_Some email password u :
  find (matches email password) mockUsers = Some u →
  u ∈ mockUsers ∧ email = Some (JStr (mu_email u)) ∧ password = Some (JStr (mu_password u)).
Proof.
  intros Hfind. apply find_some in Hfind as [Hin Hm].
  unfold matches in Hm. apply andb_true_iff in Hm as [He Hp].
  rewrite strict_eq_string_true in He, Hp.
  split; [by apply list_elem_of_In|done].
Qed.

Lemma find_matches_is_Some u :
  u ∈ mockUsers →
  is_Some (find (matches (Some (JStr (mu_email u))) (Some (JStr (mu_password u)))) mockUsers).
Proof.
  intros Hu.
  destruct (find _ mockUsers) as [u'|] eqn:Hfind; [by eexists|].
  apply list_elem_of_In in Hu.
  apply (find_none _ _ Hfind) in Hu.
  unfold matches in Hu. simpl in Hu. by rewrite !String.eqb_refl in Hu.
Qed.

Lemma get_property_null_inv j k v : get_property j k = Ok v → j ≠ JNull.
Proof. by destruct j. Qed.

(** X1 — the error answers of the login handler.  Every login request is
    answered; the answer is 500 exactly when the body is not JSON or is
    [null], and 400 exactly when the body is read and its email or password
    is missing or falsy. *)
Theorem login_POST_error_statuses (env : option string) (now : Z)
    (request : NextRequest) :
  ∃ response, login_POST env now request = Ok response ∧
    (status response = 500 ↔
       req_json request = None ∨ req_json request = Some JNull) ∧
    (status response = 400 ↔
       ∃ j email password, req_json request = Some j ∧
         get_property j "email" = Ok email ∧ get_property j "password" = Ok password ∧
         (truthy email = false ∨ truthy password = false)).
Proof.
  destruct (req_json request) as [j|] eqn:Hj.
  2:{ rewrite login_POST_no_json by done. eexists. split; [done|].
      split; split; try done; eauto.
      intros (? & ? & ? & ? & _); done. }
  destruct (get_property_total j "email") as [->|[email He]].
  { rewrite login_POST_null by done. eexists. split; [done|].
    split; split; try done; eauto.
    intros (? & ? & ? & [= <-] & ? & _); done. }
  destruct (get_property_total j "password") as [->|[password Hp]]; [done|].
  rewrite (login_POST_fields _ _ _ _ _ _ Hj He Hp).
  eexists. split; [done|].
  destruct (truthy email) eqn:Hte, (truthy password) eqn:Htp; cbn [negb orb].
  - destruct (find _ mockUsers); split; split; try done.
    + intros [?|[= ->]]; done.
    + intros (j' & e' & p' & [= <-] & He' & Hp' & Hor). simplify_eq. destruct Hor; congruence.
    + intros [?|[= ->]]; done.
    + intros (j' & e' & p' & [= <-] & He' & Hp' & Hor). simplify_eq. destruct Hor; congruence.
  - split; split; try done; [intros [?|[= ->]]; done|]. intros _. eauto 10.
  - split; split; try done; [intros [?|[= ->]]; done|]. intros _. eauto 10.
  - split; split; try done; [intros [?|[= ->]]; done|]. intros _. eauto 10.
Qed.

(** X2 — when a login succeeds.  The answer is 200 exactly when the body is
    read and its email and password are the strings of one directory entry,
    compared exactly; every other answer is 400, 401 or 500. *)
Theorem login_POST_success_iff (env : option string) (now : Z)
    (request : NextRequest) :
  ∃ response, login_POST env now request = Ok response ∧
    (status response = 200 ↔
       ∃ j u, req_json request = Some j ∧ u ∈ mockUsers ∧
         get_property j "email" = Ok (Some (JStr (mu_email u))) ∧
         get_property j "password" = Ok (Some (JStr (mu_password u)))) ∧
    (status response = 200 ∨ status response = 400 ∨
     status response = 401 ∨ status response = 500).
Proof.
  destruct (req_json request) as [j|] eqn:Hj.
  2:{ rewrite login_POST_no_json by done. eexists. split; [done|].
      split; [|auto]. split; [done|]. intros (? & ? & ? & _); done. }
  destruct (get_property_total j "email") as [->|[email He]].
  { rewrite login_POST_null by done. eexists. split; [done|].
    split; [|auto]. split; [done|]. intros (? & ? & [= <-] & _ & ? & _); done. }
  destruct (get_property_total j "password") as [->|[password Hp]]; [done|].
  rewrite (login_POST_fields _ _ _ _ _ _ Hj He Hp).
  eexists. split; [done|].
  destruct (negb (truthy email) || negb (truthy password)) eqn:Hmissing.
  { split; [|auto]. split; [done|].
    intros (j' & u & [= <-] & Hu & He' & Hp').
    rewrite He in He'. rewrite Hp in Hp'.
    injection He' as ->. injection Hp' as ->.
    destruct (mockUsers_truthy u Hu) as [Hte Htp].
    by rewrite Hte, Htp in Hmissing. }
  destruct (find _ mockUsers) as [u|] eqn:Hfind.
  - split; [|auto]. split; [|done]. intros _.
    apply find_matches_Some in Hfind as (Hu & -> & ->). eauto 10.
  - split; [|auto]. split; [done|].
    intros (j' & u & [= <-] & Hu & He' & Hp').
    rewrite He in He'. rewrite Hp in Hp'.
    injection He' as ->. injection Hp' as ->.
    destruct (find_matches_is_Some u Hu) as [u' Hu']. by rewrite Hu' in Hfind.
Qed.


End LoginOutcomes.

(** ** Session tokens at the identity lookup *)

Section SessionTokens.
Context {W : WireCodec}.

(** What [jwt.verify] has read of the header when it returns. *)
Lemma jwt_verify_Ok_header token secret now payload :
  jwt_verify token secret now = Ok payload →
  ∃ p0 p1 p2 header alg,
    split_dot token = [p0; p1; p2] ∧ decode_segment p0 = Some header ∧
    header !! "alg" = Some (JStr alg) ∧
    p2 = hmac alg secret (p0 +:+ "." +:+ p1).
Proof.
  intros Hv.
  apply jwt_verify_Ok in Hv as (p0 & p1 & p2 & header & alg & Hs & Hd & Halg & Hp2 & _).
  apply jwt_decode_header in Hd.
  destruct header as [| | | | |m]; try done.
  exists p0, p1, p2, m, alg. split_and!; try done.
  unfold decode_segment. by rewrite Hd.
Qed.

(** X4 — the lifetime of a session token, to the millisecond.  The token
    signed at [t0] is accepted by [getUserFromRequest] at [t] exactly when
    [t] is before second [floor(t0/1000) + 86400]; from that second on the
    result is [null] and the identity lookup answers 401. *)
Theorem session_token_lifetime (env : option string) (t0 t : Z) (u : User)
    (jar : gmap string string) (json : option json) :
  getUserFromRequest env t
    (request_with (<["auth-token" := session_token env t0 u]> jar) json)
  = Ok (if decide (t < (t0 `div` 1000 + 86400) * 1000)%Z
        then Some (JObj (session_claims u t0)) else None) ∧
  me_GET env t
    (request_with (<["auth-token" := session_token env t0 u]> jar) json)
  = Ok (if decide (t < (t0 `div` 1000 + 86400) * 1000)%Z
        then authenticated_as (session_claims u t0) else not_authenticated).
Proof.
  assert (getUserFromRequest env t
            (request_with (<["auth-token" := session_token env t0 u]> jar) json)
          = Ok (if decide (t < (t0 `div` 1000 + 86400) * 1000)%Z
                then Some (JObj (session_claims u t0)) else None)) as Hget.
  { case_decide as Ht; [by apply getUserFromRequest_session|].
    rewrite (getUserFromRequest_cookie _ _ _ (session_token env t0 u))
      by apply lookup_insert_eq.
    rewrite jwt_verify_session.
    destruct (_ <=? _)%Z eqn:E; [done|].
    apply Z.leb_gt in E. exfalso. apply Ht.
    pose proof (Z.mul_div_le t 1000 ltac:(lia)).
    pose proof (Z.mod_pos_bound t 1000 ltac:(lia)).
    pose proof (Z.div_mod t 1000 ltac:(lia)). lia. }
  split; [done|]. rewrite me_GET_eq, Hget. by case_decide.
Qed.

(** X5 — an altered signature.  Replace the signature segment of a session
    token by any other string: whatever the time, [getUserFromRequest]
    returns [null]. *)
Theorem altered_signature_rejected (env : option string) (t0 t : Z) (u : User)
    (signature : string) (jar : gmap string string) (json : option json) :
  let secured :=
    encode_segment jose_header +:+ "." +:+ encode_segment (session_claims u t0) in
  signature ≠ hmac "HS256" (jwt_secret env) secured →
  session_token env t0 u = secured +:+ "." +:+ hmac "HS256" (jwt_secret env) secured ∧
  getUserFromRequest env t
    (request_with (<["auth-token" := secured +:+ "." +:+ signature]> jar) json)
  = Ok None.
Proof.
  intros secured Hsig. split; [reflexivity|].
  rewrite (getUserFromRequest_cookie _ _ _ (secured +:+ "." +:+ signature))
    by apply lookup_insert_eq.
  destruct (jwt_verify _ _ _) as [decoded|] eqn:Hv; [|done].
  apply jwt_verify_Ok_header in Hv
    as (p0 & p1 & p2 & header & alg & Hs & Hp0 & Halg & Hp2).
  exfalso. unfold secured in Hs.
  rewrite !string_app_assoc in Hs.
  rewrite !split_dot_app in Hs by apply encode_segment_dot_free.
  injection Hs as <- <- Hs. apply split_dot_single in Hs as ->.
  rewrite decode_encode_segment in Hp0. injection Hp0 as <-.
  injection Halg as <-. by apply Hsig.
Qed.

End SessionTokens.

Lemma altered_signature_rejected_witness :
  let secured :=
    encode_segment (W:=Reference.codec) jose_header +:+ "." +:+
    encode_segment (W:=Reference.codec) (session_claims admin 0) in
  "tampered" ≠ hmac (WireCodec:=Reference.codec) "HS256" (jwt_secret None) secured ∧
  session_token (W:=Reference.codec) None 0 admin
  = secured +:+ "." +:+ hmac (WireCodec:=Reference.codec) "HS256" (jwt_secret None) secured ∧
  getUserFromRequest (W:=Reference.codec) None 1000
    (request_with (<["auth-token" := secured +:+ "." +:+ "tampered"]> ∅) None)
  = Ok None.
Proof.
  intros secured.
  assert ("tampered" ≠ hmac (WireCodec:=Reference.codec) "HS256" (jwt_secret None) secured)
    as Hne.
  { intros Heq. vm_compute in Heq. discriminate Heq. }
  split; [exact Hne|].
  exact (altered_signature_rejected (W:=Reference.codec) None 0 1000 admin
           "tampered" ∅ None Hne).
Defined.

(** ** Login, then the identity lookup *)

(** X6 — a login followed by the identity lookup.  When the body carries the
    email and password of a directory entry [u], the browser that receives
    the answer sends the session cookie with its next request, and an identity
    lookup before the token expires is answered with 200 and a [user] whose
    [id], [email], [name] and [role] are those of the user in the login
    response. *)
Theorem login_then_me {W : WireCodec} (env : option string) (t0 t : Z)
    (jar : gmap string string) (m : gmap string json) (u : MockUser) :
  u ∈ mockUsers →
  m !! "email" = Some (JStr (mu_email u)) →
  m !! "password" = Some (JStr (mu_password u)) →
  (t < (t0 `div` 1000 + 86400) * 1000)%Z →
  ∃ response u' decoded,
    login_POST env t0 (request_with jar (Some (JObj m))) = Ok response ∧
    u' ∈ mockUsers ∧
    body response = obj1 "user" (JObj (user_object (public_user u'))) ∧
    me_GET env t (request_with (receive t0 response jar) None)
    = Ok (authenticated_as decoded) ∧
    as_User decoded = Some (public_user u').
Proof.
  intros Hu He Hp Ht.
  rewrite (login_POST_fields env t0 _ (JObj m) (m !! "email") (m !! "password"))
    by done.
  rewrite He, Hp.
  destruct (mockUsers_truthy u Hu) as [-> ->]. cbn [negb orb].
  destruct (find_matches_is_Some u Hu) as [u' Hfind]. rewrite Hfind.
  apply find_matches_Some in Hfind as (Hu' & _ & _).
  exists (logged_in env t0 (public_user u')), u', (session_claims (public_user u') t0).
  split_and!; [done..| |apply session_claims_as_User].
  unfold receive, logged_in.
  cbn [cookies cookies_set NextResponse_json].
  rewrite insert_empty, map_fold_singleton.
  unfold store_cookie, cookie_is_over, normalizeCookie. cbn [maxAge].
  change (86400 =? 0)%Z with false. cbv iota. cbn [maxAge expires value].
  change (86400 <=? 0)%Z with false. cbv iota.
  by rewrite me_GET_eq, getUserFromRequest_session.
Qed.

Lemma login_then_me_witness :
  ∃ response u' decoded,
    login_POST (W:=Reference.codec) None 0
      (request_with ∅ (Some (credentials "admin@example.com" "admin123")))
    = Ok response ∧
    u' ∈ mockUsers ∧
    body response = obj1 "user" (JObj (user_object (public_user u'))) ∧
    me_GET (W:=Reference.codec) None 5000 (request_with (receive 0 response ∅) None)
    = Ok (authenticated_as decoded) ∧
    as_User decoded = Some (public_user u').
Proof.
  apply (login_then_me (W:=Reference.codec) None 0 5000 ∅
           (<["email" := JStr "admin@example.com"]> (<["password" := JStr "admin123"]> ∅))
           {| mu_id := "1"; mu_email := "admin@example.com"; mu_password := "admin123";
              mu_name := "Admin User"; mu_role := "admin" |}).
  - by left.
  - reflexivity.
  - reflexivity.
  - reflexivity.
Defined.

(** ** The client context *)

Section ClientContext.
Context {W : WireCodec}.

(** X7 — the outcome of the client [login].  It resolves exactly for the
    pair ["admin@example.com"], ["password123"] and otherwise rejects with
    "Invalid credentials"; either way the loading flag is false afterwards,
    and it neither navigates nor sends a request. *)
Theorem context_login_outcome (email password : string) (c : Client) :
  let c' := run (AuthProvider.login email password).1 c in
  ((AuthProvider.login email password).2 = Ok () ↔
     email = "admin@example.com" ∧ password = "password123") ∧
  ((AuthProvider.login email password).2 = Ok () ∨
   (AuthProvider.login email password).2 = Throw (Error "Invalid credentials")) ∧
  isLoading c' = false ∧ pushed c' = pushed c ∧ sent c' = sent c.
Proof.
  unfold AuthProvider.login.
  destruct (email =? "admin@example.com")%string eqn:He,
           (password =? "password123")%string eqn:Hp; cbn.
  - apply String.eqb_eq in He, Hp. split_and!; auto. by split.
  - apply String.eqb_neq in Hp. split_and!; auto.
    split; [done|]. by intros [_ ?].
  - apply String.eqb_neq in He. split_and!; auto.
    split; [done|]. by intros [? _].
  - apply String.eqb_neq in He. split_and!; auto.
    split; [done|]. by intros [? _].
Qed.

(** X8 — a failed client [login] changes nothing but the loading flag: for
    any other pair than the accepted one, the identity, the authenticated flag
    and the local storage are as before. *)
Theorem context_login_failure (email password : string) (c : Client) :
  ¬ (email = "admin@example.com" ∧ password = "password123") →
  let c' := run (AuthProvider.login email password).1 c in
  (AuthProvider.login email password).2 = Throw (Error "Invalid credentials") ∧
  user c' = user c ∧ isAuthenticated c' = isAuthenticated c ∧
  localStorage c' = localStorage c ∧ isLoading c' = false.
Proof.
  intros Hne. unfold AuthProvider.login.
  destruct (email =? "admin@example.com")%string eqn:He,
           (password =? "password123")%string eqn:Hp; cbn; try done.
  apply String.eqb_eq in He, Hp. by destruct Hne.
Qed.

Lemma hydrated_eq (storage : gmap string string) :
  hydrated storage =
  match storage !! "user" with
  | Some storedUser =>
      if (storedUser =? "")%string then signed_out storage
      else match JSON_parse storedUser with
           | Some userData =>
               {| user := userData; isLoading := false; isAuthenticated := true;
                  localStorage := storage; pushed := []; sent := [] |}
           | None => signed_out (delete "user" storage)
           end
  | None => signed_out storage
  end.
Proof.
  unfold hydrated, checkAuthStatus. cbn [localStorage mounted].
  destruct (storage !! "user") as [s|]; [|done].
  destruct (s =? "")%string; [done|].
  by destruct (JSON_parse s).
Qed.

(** X9 — hydration trusts the local storage.  Whatever non-empty text is
    stored under ["user"], if it parses as JSON the provider mounts
    authenticated with the parsed value as identity, be it [null]; no request
    is sent and the storage is left as it is. *)
Theorem hydration_trusts_storage (storage : gmap string string)
    (storedUser : string) (userData : json) :
  storage !! "user" = Some storedUser → storedUser ≠ "" →
  JSON_parse storedUser = Some userData →
  hydrated storage =
  {| user := userData; isLoading := false; isAuthenticated := true;
     localStorage := storage; pushed := []; sent := [] |}.
Proof.
  intros Hs Hne Hparse. rewrite hydrated_eq, Hs.
  apply String.eqb_neq in Hne. by rewrite Hne, Hparse.
Qed.

(** X10 — a stored entry that does not parse.  The provider mounts without an
    identity and removes the entry, so that the next mount finds none. *)
Theorem hydration_drops_corrupt_entry (storage : gmap string string)
    (storedUser : string) :
  storage !! "user" = Some storedUser → storedUser ≠ "" →
  JSON_parse storedUser = None →
  hydrated storage = signed_out (delete "user" storage) ∧
  hydrated (localStorage (hydrated storage)) = signed_out (delete "user" storage).
Proof.
  intros Hs Hne Hparse.
  assert (hydrated storage = signed_out (delete "user" storage)) as ->.
  { rewrite hydrated_eq, Hs. apply String.eqb_neq in Hne. by rewrite Hne, Hparse. }
  split; [done|]. cbn [localStorage signed_out].
  by rewrite hydrated_eq, lookup_delete_eq.
Qed.

(** X11 — the guard around hydration.  Before the mount effect has run the
    guard shows the spinner and does not redirect, whatever is stored.  Once
    it has run the guard never shows the spinner: it renders the protected
    content exactly when a non-empty, parseable ["user"] entry is stored, and
    otherwise renders nothing and redirects to ["/login"]. *)
Theorem guard_after_hydration (storage : gmap string string) :
  ProtectedRoute (mounted storage) = (Spinner, []) ∧
  (ProtectedRoute (hydrated storage) = (Children, []) ↔
     ∃ storedUser userData, storage !! "user" = Some storedUser ∧
       storedUser ≠ "" ∧ JSON_parse storedUser = Some userData) ∧
  (ProtectedRoute (hydrated storage) = (Children, []) ∨
   ProtectedRoute (hydrated storage) = (Nothing, [RouterPush "/login"])).
Proof.
  split; [reflexivity|].
  rewrite hydrated_eq.
  destruct (storage !! "user") as [s|] eqn:Hs.
  - destruct (s =? "")%string eqn:Hempty.
    + apply String.eqb_eq in Hempty as ->.
      split; [|by right]. split; [done|]. by intros (? & ? & [= <-] & ? & _).
    + apply String.eqb_neq in Hempty.
      destruct (JSON_parse s) as [j|] eqn:Hparse.
      * split; [|by left]. split; [|done]. intros _. by exists s, j.
      * split; [|by right]. split; [done|].
        intros (? & ? & [= <-] & _ & ?). congruence.
  - split; [|by right]. split; [done|]. by intros (? & ? & ? & _).
Qed.

(** X12 — reload after the client [login].  Provided the JSON text of the
    identity is not empty, the provider that mounts over the storage left by
    a successful [login] restores the same identity, authenticated, and the
    dashboard shows its content with the name "Admin User". *)
Theorem login_survives_reload (c : Client) :
  let c1 := run (AuthProvider.login "admin@example.com" "password123").1 c in
  JSON_stringify (user c1) ≠ "" →
  user (hydrated (localStorage c1)) = user c1 ∧
  isAuthenticated (hydrated (localStorage c1)) = true ∧
  isLoading (hydrated (localStorage c1)) = false ∧
  DashboardPage (hydrated (localStorage c1))
  = ((Children, []), Some (JStr "Admin User")).
Proof.
  intros c1 Hne.
  rewrite (hydration_trusts_storage (localStorage c1) (JSON_stringify (user c1)) (user c1)).
  - done.
  - apply lookup_insert_eq.
  - done.
  - apply JSON_parse_stringify.
Qed.

(** X13 — reload after [logout].  From every client state, the provider
    that mounts over the storage left by [logout] has no identity, and the
    guard redirects to ["/login"]. *)
Theorem logout_survives_reload (c : Client) :
  let c1 := run AuthProvider.logout c in
  hydrated (localStorage c1) = signed_out (delete "user" (localStorage c)) ∧
  ProtectedRoute (hydrated (localStorage c1)) = (Nothing, [RouterPush "/login"]).
Proof.
  intros c1. subst c1.
  assert (hydrated (localStorage (run AuthProvider.logout c))
          = signed_out (delete "user" (localStorage c))) as ->.
  { rewrite hydrated_eq. cbn [localStorage run AuthProvider.logout foldl perform].
    by rewrite lookup_delete_eq. }
  done.
Qed.

(** X14 — the submit handler of the login page.  Whatever is typed, it
    leaves identity, authenticated flag, storage and requests of the client
    as they are and pushes ["/dashboard"], where the guard decides as before
    the submit: for a client that is loaded and not authenticated the route
    ends on ["/login"]. *)
Theorem handleSubmit_does_not_authenticate (email password : string) (c : Client) :
  let c1 := run (shared_effects (handleSubmit email password)) c in
  user c1 = user c ∧ isAuthenticated c1 = isAuthenticated c ∧
  isLoading c1 = isLoading c ∧ localStorage c1 = localStorage c ∧
  sent c1 = sent c ∧
  pushed c1 = (pushed c ++ ["/dashboard"])%list ∧
  DashboardPage c1 = DashboardPage c ∧
  pushed (run (DashboardPage c1).1.2 c1)
  = (pushed c ++ "/dashboard" ::
       if negb (isLoading c) && negb (isAuthenticated c) then ["/login"] else [])%list.
Proof.
  split_and!; try reflexivity.
  unfold DashboardPage, ProtectedRoute. cbn.
  destruct (isLoading c), (isAuthenticated c); cbn; by rewrite <-?app_assoc.
Qed.

End ClientContext.

Lemma context_login_failure_witness :
  ¬ ("admin@example.com" = "admin@example.com" ∧ "admin123" = "password123") ∧
  (AuthProvider.login (W:=Reference.codec) "admin@example.com" "admin123").2
  = Throw (Error "Invalid credentials") ∧
  user (run (AuthProvider.login (W:=Reference.codec) "admin@example.com" "admin123").1
          AuthProvider.initial) = user AuthProvider.initial ∧
  isAuthenticated
    (run (AuthProvider.login (W:=Reference.codec) "admin@example.com" "admin123").1
       AuthProvider.initial) = isAuthenticated AuthProvider.initial ∧
  localStorage
    (run (AuthProvider.login (W:=Reference.codec) "admin@example.com" "admin123").1
       AuthProvider.initial) = localStorage AuthProvider.initial ∧
  isLoading
    (run (AuthProvider.login (W:=Reference.codec) "admin@example.com" "admin123").1
       AuthProvider.initial) = false.
Proof.
  assert (¬ ("admin@example.com" = "admin@example.com" ∧ "admin123" = "password123"))
    as Hne by (intros [_ Hp]; discriminate Hp).
  split; [exact Hne|].
  exact (context_login_failure (W:=Reference.codec) "admin@example.com" "admin123"
           AuthProvider.initial Hne).
Defined.

Lemma hydration_trusts_storage_witness :
  (<["user" := JSON_stringify (WireCodec:=Reference.codec) JNull]> ∅ : gmap string string)
    !! "user" = Some (JSON_stringify (WireCodec:=Reference.codec) JNull) ∧
  JSON_stringify (WireCodec:=Reference.codec) JNull ≠ "" ∧
  JSON_parse (WireCodec:=Reference.codec) (JSON_stringify (WireCodec:=Reference.codec) JNull)
  = Some JNull ∧
  hydrated (W:=Reference.codec)
    (<["user" := JSON_stringify (WireCodec:=Reference.codec) JNull]> ∅) =
  {| user := JNull; isLoading := false; isAuthenticated := true;
     localStorage := <["user" := JSON_stringify (WireCodec:=Reference.codec) JNull]> ∅;
     pushed := []; sent := [] |}.
Proof.
  assert (JSON_stringify (WireCodec:=Reference.codec) JNull ≠ "") as Hne
    by (vm_compute; discriminate).
  split; [reflexivity|]. split; [exact Hne|]. split; [by vm_compute|].
  apply (hydration_trusts_storage (W:=Reference.codec) _
           (JSON_stringify (WireCodec:=Reference.codec) JNull) JNull).
  - reflexivity.
  - exact Hne.
  - by vm_compute.
Defined.

Lemma hydration_drops_corrupt_entry_witness :
  (<["user" := "{oops"]> ∅ : gmap string string) !! "user" = Some "{oops" ∧
  "{oops" ≠ "" ∧
  JSON_parse (WireCodec:=Reference.codec) "{oops" = None ∧
  hydrated (W:=Reference.codec) (<["user" := "{oops"]> ∅)
  = signed_out (delete "user" (<["user" := "{oops"]> ∅)) ∧
  hydrated (W:=Reference.codec)
    (localStorage (hydrated (W:=Reference.codec) (<["user" := "{oops"]> ∅)))
  = signed_out (delete "user" (<["user" := "{oops"]> ∅)).
Proof.
  split; [reflexivity|]. split; [discriminate|]. split; [by vm_compute|].
  apply (hydration_drops_corrupt_entry (W:=Reference.codec)
           (<["user" := "{oops"]> ∅) "{oops").
  - reflexivity.
  - discriminate.
  - by vm_compute.
Defined.

Lemma login_survives_reload_witness :
  let c1 := run (AuthProvider.login (W:=Reference.codec)
                   "admin@example.com" "password123").1 AuthProvider.initial in
  JSON_stringify (WireCodec:=Reference.codec) (user c1) ≠ "" ∧
  user (hydrated (W:=Reference.codec) (localStorage c1)) = user c1 ∧
  isAuthenticated (hydrated (W:=Reference.codec) (localStorage c1)) = true ∧
  isLoading (hydrated (W:=Reference.codec) (localStorage c1)) = false ∧
  DashboardPage (hydrated (W:=Reference.codec) (localStorage c1))
  = ((Children, []), Some (JStr "Admin User")).
Proof.
  intros c1.
  assert (JSON_stringify (WireCodec:=Reference.codec) (user c1) ≠ "") as Hne
    by apply Reference.bits_nonempty.
  split; [exact Hne|].
  exact (login_survives_reload (W:=Reference.codec) AuthProvider.initial Hne).
Defined.
